(** * xml-dispatcher: first-match dispatch of XML payloads to handlers

    A shallow embedding of package [xmlprocessor] (xmlprocessor.go,
    examples.go; package [xmldispatcher] holds the same code) and of the
    part of Go's [encoding/xml], [fmt], [errors] and [io] that the package
    calls.

    - Go's [[]byte] is [list byte], Go's [string] is [string].
    - Go's [error] is an interface value: [nil] or a value of one of the
      dynamic types that occur in this program.
    - A value of interface type [Handler] is [nil] or an implementation.
    - A method with a pointer receiver that mutates its receiver is a
      function from the old receiver to the new one.
    - Writes to standard output, and whatever else a handler's [Handle]
      changes, are threaded through as explicit state.
    - A call that panics is an outcome of its own, beside returning.

    The file has the program first, then the notions used to state its
    properties (element trees, what a payload holds), then the lemmas, and
    last one theorem for each claim C1 to C10. *)

From Stdlib Require Import String Ascii Bool Arith Lia List Permutation.
From Stdlib.Strings Require Import Byte.
From Stdlib.Numbers Require Import DecimalString.
Import ListNotations.
Local Open Scope string_scope.

(** ** Go preliminaries: errors *)

(** The dynamic types of the error values this program can produce. *)
Inductive error_value : Type :=
| errorString (s : string)                 (* *errors.errorString: errors.New, fmt.Errorf without verbs, io.EOF *)
| SyntaxError (Msg : string) (Line : nat)  (* *xml.SyntaxError *)
| UnmarshalError (s : string).             (* xml.UnmarshalError *)

(** An [error] interface value; [nil] is [None]. *)
Definition error : Type := option error_value.
Definition nil : error := None.

Module strconv.
(** [strconv.Itoa] on a non-negative int. *)
Definition Itoa (n : nat) : string := NilEmpty.string_of_uint (Nat.to_uint n).
End strconv.

(** The [Error() string] method of each dynamic type. *)
Definition Error (e : error_value) : string :=
  match e with
  | errorString s => s
  | SyntaxError Msg Line => "XML syntax error on line " ++ strconv.Itoa Line ++ ": " ++ Msg
  | UnmarshalError s => s
  end.

Module errors.
Definition New (text : string) : error := Some (errorString text).
End errors.

Module io.
(** [var EOF = errors.New("EOF")] *)
Definition EOF : error_value := errorString "EOF".
End io.

(** Standard output: the bytes written so far. *)
Definition Stdout : Type := string.

Module fmt.
(** [fmt.Errorf(format)] with a format that has no verb: [errors.New(format)]. *)
Definition Errorf (format : string) : error := errors.New format.
Definition newline : string := String (ascii_of_nat 10) EmptyString.
(** [fmt.Println(a, b)] on two strings: the operands separated by a space,
    then a newline, appended to standard output. *)
Definition Println (a b : string) (out : Stdout) : Stdout :=
  out ++ a ++ " " ++ b ++ newline.
End fmt.

(** ** xmlprocessor.go: the dispatcher *)

Section Dispatcher.

(** Whatever a handler's [Handle] may change (standard output for the example
    handlers). *)
Context {World : Type}.

(** [type Handler interface { CanHandle(xmlData []byte) bool;
                              Handle(xmlData []byte) error }] *)
Record Handler : Type := {
  CanHandle : list byte -> bool;
  Handle : list byte -> World -> World * error
}.

(** A value of interface type [Handler] is [nil] ([None]) or an
    implementation: [option Handler].

    [type XMLProcessor struct { handlers []Handler }] *)
Record XMLProcessor : Type := { handlers : list (option Handler) }.

(** [return &XMLProcessor{}] *)
Definition NewXMLProcessor : XMLProcessor := {| handlers := [] |}.

(** [p.handlers = append(p.handlers, h)] *)
Definition RegisterHandler (p : XMLProcessor) (h : option Handler) : XMLProcessor :=
  {| handlers := handlers p ++ [h] |}.

(** The method calls a dispatch makes, by registry index (ghost trace). *)
Inductive call : Type :=
| CanHandleCall (i : nat)
| HandleCall (i : nat).

(** How a call of [ProcessXML] ends. *)
Inductive outcome : Type :=
| Returns (err : error)
| Panics (msg : string).

(** A method call on a nil interface value. *)
Definition nilDereference : string :=
  "runtime error: invalid memory address or nil pointer dereference".

Record dispatch : Type := {
  calls : list call;
  world : World;
  result : outcome
}.

(** [for _, handler := range p.handlers { if handler.CanHandle(xmlData) {
      return handler.Handle(xmlData) } }
    return fmt.Errorf("no handler found for the given XML")],
    from index [i] on. *)
Fixpoint rangeHandlers (hs : list (option Handler)) (i : nat) (xmlData : list byte)
  (w : World) : dispatch :=
  match hs with
  | [] => {| calls := []; world := w;
             result := Returns (fmt.Errorf "no handler found for the given XML") |}
  | None :: _ => {| calls := []; world := w; result := Panics nilDereference |}
  | Some handler :: rest =>
      if CanHandle handler xmlData
      then let (w', err) := Handle handler xmlData w in
           {| calls := [CanHandleCall i; HandleCall i]; world := w'; result := Returns err |}
      else let d := rangeHandlers rest (S i) xmlData w in
           {| calls := CanHandleCall i :: calls d; world := world d; result := result d |}
  end.

Definition ProcessXML (p : XMLProcessor) (xmlData : list byte) (w : World) : dispatch :=
  rangeHandlers (handlers p) 0 xmlData w.

(** Registering a list of handlers in order on a new processor. *)
Definition registerAll (hs : list Handler) : XMLProcessor :=
  fold_left (fun p h => RegisterHandler p (Some h)) hs NewXMLProcessor.

(** A registry entry that is a handler and does not recognise the payload. *)
Definition declines (xmlData : list byte) (e : option Handler) : Prop :=
  exists h, e = Some h /\ CanHandle h xmlData = false.

Definition isHandleCall (c : call) : bool :=
  match c with HandleCall _ => true | CanHandleCall _ => false end.

(** What the caller observes of a dispatch: the state left behind and the
    way the call ended. *)
Definition observed (d : dispatch) : World * outcome := (world d, result d).

End Dispatcher.

Arguments Handler World : clear implicits.
Arguments XMLProcessor World : clear implicits.
Arguments dispatch World : clear implicits.

(** ** encoding/xml: the decoding facility the handlers call

    The package belongs to Go's standard library, not to the repository; it
    is modelled after its documented behaviour and its source.

    [xml.Unmarshal(data, &v)] is [NewDecoder(bytes.NewReader(data)).Decode(&v)]:
    a strict decoder reads tokens from the payload ([Decoder.Token]) and
    [Decoder.unmarshal] fills the struct from them.  The two layers are
    modelled separately:

    - the token layer is an interface, [TokenReader]: the sequence of tokens
      that successive calls of [Decoder.Token] return for a payload, followed
      by the error that ends it.  Its behaviour is fixed here only on a
      fragment of XML ([plain]); everything below holds for every reader
      that agrees with the fragment;
    - [unmarshal] and [Skip] are modelled in full for the struct types of
      examples.go: an optional [XMLName] field and string fields bound to
      an attribute or to a child element.  Such a struct is decoded at
      depth 0 and its fields at depth 1, far from [maxUnmarshalDepth], so
      the depth check is left out. *)
Module xml.

(** [type Name struct { Space, Local string }] *)
Record Name : Type := { Space : string; Local : string }.

(** [type Attr struct { Name Name; Value string }] *)
Record Attr : Type := { AttrName : Name; Value : string }.

(** [type Token any]: one of [StartElement], [EndElement], [CharData],
    [Comment], [ProcInst], [Directive]. *)
Inductive Token : Type :=
| StartElement (name : Name) (attr : list Attr)
| EndElement (name : Name)
| CharData (data : string)
| Comment (data : string)
| ProcInst (target : string) (inst : string)
| Directive (data : string).

(** The errors [Decoder.Token] returns on input from a byte slice. *)
Inductive readError : Type :=
| readEOF                                 (* io.EOF: the input ended outside every element *)
| readSyntax (Msg : string) (Line : nat)  (* d.syntaxError(Msg) *)
| readDeclaration (detail : string).      (* fmt.Errorf("xml: ..."): version or encoding of <?xml ...?> *)

Definition readError_error (e : readError) : error_value :=
  match e with
  | readEOF => io.EOF
  | readSyntax Msg Line => SyntaxError Msg Line
  | readDeclaration detail => errorString ("xml: " ++ detail)
  end.

(** *** The plain fragment of the token layer

    Start tags with quoted attributes, end tags, empty-element tags and
    character data, all in printable ASCII (with tab and newline), names
    without a colon, no attribute called xmlns, no entity, comment,
    processing instruction, CDATA section or directive.  Two failures are
    in the fragment: input that ends early, and an end tag that does not
    close the open element.  On any other input the fragment says nothing
    ([None], [RawOutside]). *)
Module plain.
Local Open Scope nat_scope.

Definition code (c : byte) : nat := Byte.to_nat c.

(** [isNameByte] *)
Definition isNameByte (c : byte) : bool :=
  let n := code c in
  ((65 <=? n) && (n <=? 90)) || ((97 <=? n) && (n <=? 122))
  || ((48 <=? n) && (n <=? 57))
  || (n =? 95) || (n =? 58) || (n =? 46) || (n =? 45).

(** An ASCII character that may start a name, the colon apart. *)
Definition isNameStart (c : byte) : bool :=
  let n := code c in
  ((65 <=? n) && (n <=? 90)) || ((97 <=? n) && (n <=? 122)) || (n =? 95).

(** Bytes that stand for themselves in character data and attribute values. *)
Definition isPlainByte (c : byte) : bool :=
  let n := code c in
  (((32 <=? n) && (n <=? 126)) && negb (n =? 60) && negb (n =? 38))
  || (n =? 10) || (n =? 9).

Definition str (bs : list byte) : string := string_of_list_byte bs.

(** [d.space()]: skips blanks, counting lines. *)
Fixpoint space (input : list byte) (line : nat) : list byte * nat :=
  match input with
  | c :: rest =>
      match c with
      | x20 | x0d | x09 => space rest line
      | x0a => space rest (S line)
      | _ => (input, line)
      end
  | [] => ([], line)
  end.

(** The longest run of name bytes at the head of the input. *)
Fixpoint readName (input : list byte) : list byte * list byte :=
  match input with
  | c :: rest =>
      if isNameByte c
      then let (n, r) := readName rest in (c :: n, r)
      else ([], input)
  | [] => ([], [])
  end.

Inductive nameResult : Type :=
| NameOk (s : string) (rest : list byte)
| NameEOF
| NameOutside.

(** [d.nsname()] on a name of the fragment. *)
Definition name (input : list byte) : nameResult :=
  match readName input with
  | (_, []) => NameEOF
  | ([], _) => NameOutside
  | (c :: n, next :: rest) =>
      if (128 <=? code next) then NameOutside
      else if isNameStart c && negb (existsb (Byte.eqb x3a) n)
      then NameOk (str (c :: n)) (next :: rest)
      else NameOutside
  end.

(** Whether "]]>" occurs. *)
Fixpoint hasCDEnd (bs : list byte) : bool :=
  match bs with
  | x5d :: (x5d :: x3e :: _) as rest => true || hasCDEnd rest
  | _ :: rest => hasCDEnd rest
  | [] => false
  end.

(** [d.text(-1, false)]: character data up to the next tag or the end of
    the input. *)
Fixpoint chardata (input : list byte) (line : nat) : option (list byte * list byte * nat) :=
  match input with
  | [] => Some ([], [], line)
  | x3c :: _ => Some ([], input, line)
  | c :: rest =>
      if isPlainByte c
      then match chardata rest (if Byte.eqb c x0a then S line else line) with
           | Some (data, r, l) => Some (c :: data, r, l)
           | None => None
           end
      else None
  end.

(** [d.text(quote, false)]: an attribute value up to its closing quote. *)
Fixpoint quoted (quote : byte) (input : list byte) (line : nat)
  : option (list byte * list byte * nat) :=
  match input with
  | [] => None
  | c :: rest =>
      if Byte.eqb c quote then Some ([], rest, line)
      else if isPlainByte c
      then match quoted quote rest (if Byte.eqb c x0a then S line else line) with
           | Some (data, r, l) => Some (c :: data, r, l)
           | None => None
           end
      else None
  end.

Inductive attrsResult : Type :=
| AttrsOk (attr : list Attr) (empty : bool) (rest : list byte) (line : nat)
| AttrsError (Msg : string) (Line : nat)
| AttrsOutside.

(** The attribute loop of [rawToken], up to the [>] or [/>] of the tag. *)
Fixpoint attributes (fuel : nat) (input : list byte) (line : nat) (attr : list Attr)
  : attrsResult :=
  match fuel with
  | 0 => AttrsOutside
  | S fuel =>
      let (r, l) := space input line in
      match r with
      | [] => AttrsError "unexpected EOF" l
      | x2f :: [] => AttrsError "unexpected EOF" l
      | x2f :: x3e :: rest => AttrsOk attr true rest l
      | x2f :: _ => AttrsOutside
      | x3e :: rest => AttrsOk attr false rest l
      | _ =>
          match name r with
          | NameEOF => AttrsError "unexpected EOF" l
          | NameOutside => AttrsOutside
          | NameOk n r1 =>
              if String.eqb n "xmlns" then AttrsOutside else
              let (r2, l2) := space r1 l in
              match r2 with
              | [] => AttrsError "unexpected EOF" l2
              | x3d :: r3 =>
                  let (r4, l4) := space r3 l2 in
                  match r4 with
                  | [] => AttrsError "unexpected EOF" l4
                  | q :: r5 =>
                      if Byte.eqb q x22 || Byte.eqb q x27
                      then match quoted q r5 l4 with
                           | Some (v, r6, l6) =>
                               if hasCDEnd v then AttrsOutside
                               else attributes fuel r6 l6
                                      (attr ++ [{| AttrName := {| Space := ""; Local := n |};
                                                   Value := str v |}])
                           | None => AttrsOutside
                           end
                      else AttrsOutside
                  end
              | _ => AttrsOutside
              end
          end
      end
  end.

Inductive raw : Type :=
| RawToken (t : Token) (needClose : bool) (rest : list byte) (line : nat)
| RawEOF
| RawError (Msg : string) (Line : nat)
| RawOutside.

(** [d.rawToken()] with [d.needClose] unset. *)
Definition rawToken (input : list byte) (line : nat) : raw :=
  match input with
  | [] => RawEOF
  | x3c :: [] => RawError "unexpected EOF" line
  | x3c :: x2f :: r =>
      match name r with
      | NameEOF => RawError "unexpected EOF" line
      | NameOutside => RawOutside
      | NameOk n r1 =>
          let (r2, l2) := space r1 line in
          match r2 with
          | [] => RawError "unexpected EOF" l2
          | x3e :: r3 => RawToken (EndElement {| Space := ""; Local := n |}) false r3 l2
          | _ => RawOutside
          end
      end
  | x3c :: (x3f | x21) :: _ => RawOutside
  | x3c :: r =>
      match name r with
      | NameEOF => RawError "unexpected EOF" line
      | NameOutside => RawOutside
      | NameOk n r1 =>
          match attributes (S (List.length r1)) r1 line [] with
          | AttrsOk attr empty r2 l2 =>
              RawToken (StartElement {| Space := ""; Local := n |} attr) empty r2 l2
          | AttrsError Msg Line => RawError Msg Line
          | AttrsOutside => RawOutside
          end
      end
  | _ =>
      match chardata input line with
      | Some (data, rest, l) =>
          if hasCDEnd data then RawOutside else RawToken (CharData (str data)) false rest l
      | None => RawOutside
      end
  end.

(** [d.popElement]: the end tag must close the innermost open element. *)
Definition popElement (stk : list Name) (n : Name) (line : nat) : readError + list Name :=
  match stk with
  | [] => inl (readSyntax ("unexpected end element </" ++ Local n ++ ">") line)
  | s :: stk' =>
      if String.eqb (Local s) (Local n) then inr stk'
      else inl (readSyntax ("element <" ++ Local s ++ "> closed by </" ++ Local n ++ ">") line)
  end.

Definition emit (t : Token) (s : option (list Token * readError)) : option (list Token * readError) :=
  match s with
  | Some (toks, e) => Some (t :: toks, e)
  | None => None
  end.

(** Successive calls of [d.Token()] until one fails: [stk] is the stack of
    open elements, [toClose] the pending end of an empty-element tag. *)
Fixpoint tokensFrom (fuel : nat) (input : list byte) (line : nat) (stk : list Name)
  (toClose : option Name) : option (list Token * readError) :=
  match fuel with
  | 0 => None
  | S fuel =>
      match toClose with
      | Some n =>
          match popElement stk n line with
          | inl e => Some ([], e)
          | inr stk' => emit (EndElement n) (tokensFrom fuel input line stk' None)
          end
      | None =>
          match rawToken input line with
          | RawEOF =>
              Some ([], match stk with
                        | [] => readEOF
                        | _ :: _ => readSyntax "unexpected EOF" line
                        end)
          | RawError Msg Line => Some ([], readSyntax Msg Line)
          | RawOutside => None
          | RawToken (StartElement n attr) needClose rest l =>
              emit (StartElement n attr)
                   (tokensFrom fuel rest l (n :: stk) (if needClose then Some n else None))
          | RawToken (EndElement n) _ rest l =>
              match popElement stk n l with
              | inl e => Some ([], e)
              | inr stk' => emit (EndElement n) (tokensFrom fuel rest l stk' None)
              end
          | RawToken t _ rest l => emit t (tokensFrom fuel rest l stk None)
          end
      end
  end.

(** The tokens of a payload of the fragment, as a new decoder reads them. *)
Definition tokens (data : list byte) : option (list Token * readError) :=
  tokensFrom (2 * List.length data + 2) data 1 [] None.

End plain.

(** The token layer of a strict decoder on a byte slice: the tokens that
    successive calls of [Decoder.Token] return for the payload, and the
    error of the call that fails. *)
Class TokenReader : Type := {
  tokens : list byte -> list Token * readError;
  tokens_plain : forall data s, plain.tokens data = Some s -> tokens data = s
}.

(** *** Decoder.Skip and Decoder.unmarshal *)

Section Unmarshal.

(** The error of the [Token] call that fails. *)
Variable terr : readError.

(** [Skip]: reads tokens until it has consumed the end element matching the
    most recent start element already consumed; [depth] counts the start
    elements met on the way. *)
Fixpoint Skip (toks : list Token) (depth : nat) : error_value + list Token :=
  match toks with
  | [] => inl (readError_error terr)
  | StartElement _ _ :: rest => Skip rest (S depth)
  | EndElement _ :: rest =>
      match depth with
      | 0 => inr rest
      | S depth' => Skip rest depth'
      end
  | _ :: rest => Skip rest depth
  end.

(** [unmarshal] into a value of kind [reflect.String], after its start
    element: character data is collected, nested elements are skipped, and
    the end element ends the loop; [copyValue] then stores the text.
    [fuel] bounds the number of loop iterations. *)
Fixpoint unmarshal_String (fuel : nat) (toks : list Token) (data : string)
  : error_value + string * list Token :=
  match fuel with
  | 0 => inl (readError_error terr)
  | S fuel =>
      match toks with
      | [] => inl (readError_error terr)
      | StartElement _ _ :: rest =>
          match Skip rest 0 with
          | inl e => inl e
          | inr rest' => unmarshal_String fuel rest' data
          end
      | EndElement _ :: rest => inr (data, rest)
      | CharData t :: rest => unmarshal_String fuel rest (data ++ t)
      | _ :: rest => unmarshal_String fuel rest data
      end
  end.

Context {T : Type}.

(** How a struct field is bound ([fElement], [fAttr] of typeinfo.go). *)
Inductive fieldFlags : Type := fElement | fAttr.

(** [fieldInfo] of a string field: the name from its tag, its mode, and the
    assignment to it. *)
Record fieldInfo : Type := {
  name : string;
  flags : fieldFlags;
  assign : T -> string -> T
}.

(** [typeInfo]: the [XMLName] field, if the struct has one (the name from its
    tag and the assignment to it), and the other fields. *)
Record typeInfo : Type := {
  xmlname : option (string * (T -> Name -> T));
  fields : list fieldInfo
}.

Variable tinfo : typeInfo.

Definition isAttr (f : fieldInfo) : bool :=
  match flags f with fAttr => true | fElement => false end.

Definition isElement (f : fieldInfo) : bool :=
  match flags f with fElement => true | fAttr => false end.

(** "Validate and assign element name." *)
Definition assignName (v : T) (start : Name) : error_value + T :=
  match xmlname tinfo with
  | None => inr v
  | Some (n, set) =>
      if negb (String.eqb n "") && negb (String.eqb n (Local start))
      then inl (UnmarshalError ("expected element type <" ++ n ++ "> but have <"
                                ++ Local start ++ ">"))
      else inr (set v start)
  end.

(** "Assign attributes.": every attribute goes to every attribute field of
    its local name. *)
Definition assignAttr (v : T) (a : Attr) : T :=
  fold_left (fun v f => if isAttr f && String.eqb (Local (AttrName a)) (name f)
                        then assign f v (Value a) else v)
            (fields tinfo) v.

(** [unmarshalPath] for fields without parent path: the first element field
    of the start element's local name. *)
Definition unmarshalPath (start : Name) : option fieldInfo :=
  find (fun f => isElement f && String.eqb (name f) (Local start)) (fields tinfo).

(** "Find end element. Process sub-elements along the way." for a struct. *)
Fixpoint unmarshal_children (fuel : nat) (toks : list Token) (v : T)
  : T * (error_value + list Token) :=
  match fuel with
  | 0 => (v, inl (readError_error terr))
  | S fuel =>
      match toks with
      | [] => (v, inl (readError_error terr))
      | StartElement n _ :: rest =>
          match unmarshalPath n with
          | Some f =>
              match unmarshal_String (S (List.length rest)) rest "" with
              | inl e => (v, inl e)
              | inr (s, rest') => unmarshal_children fuel rest' (assign f v s)
              end
          | None =>
              match Skip rest 0 with
              | inl e => (v, inl e)
              | inr rest' => unmarshal_children fuel rest' v
              end
          end
      | EndElement _ :: rest => (v, inr rest)
      | _ :: rest => unmarshal_children fuel rest v
      end
  end.

(** [unmarshal] into a struct, after its start element. *)
Definition unmarshal_Struct (start : Name) (attr : list Attr) (toks : list Token) (v : T)
  : T * error :=
  match assignName v start with
  | inl e => (v, Some e)
  | inr v1 =>
      match unmarshal_children (S (List.length toks)) toks (fold_left assignAttr attr v1) with
      | (v2, inl e) => (v2, Some e)
      | (v2, inr _) => (v2, nil)
      end
  end.

(** "Find start element if we need it." *)
Fixpoint findStart (toks : list Token) : option (Name * list Attr * list Token) :=
  match toks with
  | [] => None
  | StartElement n attr :: rest => Some (n, attr, rest)
  | _ :: rest => findStart rest
  end.

(** [d.Decode(&v)] on the tokens of a payload. *)
Definition Decode (toks : list Token) (v : T) : T * error :=
  match findStart toks with
  | None => (v, Some (readError_error terr))
  | Some (start, attr, rest) => unmarshal_Struct start attr rest v
  end.

End Unmarshal.

Arguments fieldInfo T : clear implicits.
Arguments typeInfo T : clear implicits.

(** [xml.Unmarshal(data, &v)], with [v] the struct before the call: the
    struct after the call and the error returned. *)
Definition Unmarshal `{TokenReader} {T : Type} (data : list byte) (tinfo : typeInfo T) (v : T)
  : T * error :=
  Decode (snd (tokens data)) tinfo (fst (tokens data)) v.

End xml.

(** [err == nil] *)
Definition isNil (err : error) : bool :=
  match err with None => true | Some _ => false end.

(** ** examples.go: the example handlers *)

(** [type ReportHandler struct{}] and its methods. *)
Module ReportHandler.

(** [type Root struct { XMLName xml.Name `xml:"report"` }] *)
Record Root : Type := { XMLName : xml.Name }.

Definition Root_zero : Root := {| XMLName := {| xml.Space := ""; xml.Local := "" |} |}.

Definition Root_typeInfo : xml.typeInfo Root := {|
  xml.xmlname := Some ("report", fun _ n => {| XMLName := n |});
  xml.fields := []
|}.

(** [var root Root
     err := xml.Unmarshal(xmlData, &root)
     return err == nil && root.XMLName.Local == "report"] *)
Definition CanHandle `{xml.TokenReader} (xmlData : list byte) : bool :=
  let (root, err) := xml.Unmarshal xmlData Root_typeInfo Root_zero in
  isNil err && String.eqb (xml.Local (XMLName root)) "report".

(** [type Report struct { Data string `xml:"data"` }] *)
Record Report : Type := { Data : string }.

Definition Report_zero : Report := {| Data := "" |}.

Definition Report_typeInfo : xml.typeInfo Report := {|
  xml.xmlname := None;
  xml.fields := [ {| xml.name := "data"; xml.flags := xml.fElement;
                     xml.assign := fun _ s => {| Data := s |} |} ]
|}.

(** [var report Report
     if err := xml.Unmarshal(xmlData, &report); err != nil { return err }
     fmt.Println("Processing report:", report.Data)
     return nil] *)
Definition Handle `{xml.TokenReader} (xmlData : list byte) (out : Stdout) : Stdout * error :=
  let (report, err) := xml.Unmarshal xmlData Report_typeInfo Report_zero in
  match err with
  | Some e => (out, Some e)
  | None => (fmt.Println "Processing report:" (Data report) out, nil)
  end.

End ReportHandler.

(** [type InvoiceHandler struct{}] and its methods. *)
Module InvoiceHandler.

(** [type Root struct { XMLName xml.Name `xml:"invoice"`
                        Type    string   `xml:"type,attr"` }] *)
Record Root : Type := { XMLName : xml.Name; Type_ : string }.

Definition Root_zero : Root :=
  {| XMLName := {| xml.Space := ""; xml.Local := "" |}; Type_ := "" |}.

Definition Root_typeInfo : xml.typeInfo Root := {|
  xml.xmlname := Some ("invoice", fun v n => {| XMLName := n; Type_ := Type_ v |});
  xml.fields := [ {| xml.name := "type"; xml.flags := xml.fAttr;
                     xml.assign := fun v s => {| XMLName := XMLName v; Type_ := s |} |} ]
|}.

(** [var root Root
     err := xml.Unmarshal(xmlData, &root)
     return err == nil && root.XMLName.Local == "invoice" && root.Type == "sales"] *)
Definition CanHandle `{xml.TokenReader} (xmlData : list byte) : bool :=
  let (root, err) := xml.Unmarshal xmlData Root_typeInfo Root_zero in
  isNil err && String.eqb (xml.Local (XMLName root)) "invoice"
  && String.eqb (Type_ root) "sales".

(** [type Invoice struct { Amount string `xml:"amount"` }] *)
Record Invoice : Type := { Amount : string }.

Definition Invoice_zero : Invoice := {| Amount := "" |}.

Definition Invoice_typeInfo : xml.typeInfo Invoice := {|
  xml.xmlname := None;
  xml.fields := [ {| xml.name := "amount"; xml.flags := xml.fElement;
                     xml.assign := fun _ s => {| Amount := s |} |} ]
|}.

(** [var invoice Invoice
     if err := xml.Unmarshal(xmlData, &invoice); err != nil { return err }
     fmt.Println("Processing invoice amount:", invoice.Amount)
     return nil] *)
Definition Handle `{xml.TokenReader} (xmlData : list byte) (out : Stdout) : Stdout * error :=
  let (invoice, err) := xml.Unmarshal xmlData Invoice_typeInfo Invoice_zero in
  match err with
  | Some e => (out, Some e)
  | None => (fmt.Println "Processing invoice amount:" (Amount invoice) out, nil)
  end.

End InvoiceHandler.

(** [&ReportHandler{}] and [&InvoiceHandler{}] as values of type [Handler]. *)
Definition ReportHandler `{xml.TokenReader} : Handler Stdout :=
  {| CanHandle := ReportHandler.CanHandle; Handle := ReportHandler.Handle |}.

Definition InvoiceHandler `{xml.TokenReader} : Handler Stdout :=
  {| CanHandle := InvoiceHandler.CanHandle; Handle := InvoiceHandler.Handle |}.

(** A reader that follows the plain fragment and sees an empty input
    elsewhere: the interface is inhabited. *)
Definition plainTokens (data : list byte) : list xml.Token * xml.readError :=
  match xml.plain.tokens data with
  | Some s => s
  | None => ([], xml.readEOF)
  end.

Definition plainReader : xml.TokenReader.
Proof.
  refine {| xml.tokens := plainTokens |}.
  intros data s E. unfold plainTokens. rewrite E. reflexivity.
Defined.

(** The payloads of the scenarios. *)
Definition quote : string := String (ascii_of_nat 34) EmptyString.
Definition bytes (s : string) : list byte := list_byte_of_string s.
Definition reportHello : list byte := bytes "<report><data>Hello</data></report>".
Definition unknown : list byte := bytes "<unknown></unknown>".
Definition invoiceOther : list byte :=
  bytes ("<invoice type=" ++ quote ++ "other" ++ quote ++ "></invoice>").

(** A handler that accepts every payload and fails on it. *)
Definition failingHandler : Handler Stdout :=
  {| CanHandle := fun _ => true; Handle := fun _ out => (out, errors.New "cannot process") |}.

(** The start of an element that is never closed, and an element closed by
    the wrong tag. *)
Definition truncated : list byte := bytes "<report><data>Hello".

(** An empty report, with and without an empty data child. *)
Definition reportEmptyData : list byte := bytes "<report><data></data></report>".
Definition reportNoData : list byte := bytes "<report></report>".


(** A handler that accepts every payload and processes it as the report
    handler does. *)
Definition eagerReportHandler `{xml.TokenReader} : Handler Stdout :=
  {| CanHandle := fun _ => true; Handle := ReportHandler.Handle |}.

(** ** xml_dispatcher_test.go: the handler of the tests *)

(** [type TestCodeChangesHandler struct { parsedBranchName string }] and
    its methods; [receiver] is the struct behind the pointer receiver. *)
Module TestCodeChangesHandler.

Record receiver : Type := { parsedBranchName : string }.

(** [&TestCodeChangesHandler{}] *)
Definition new : receiver := {| parsedBranchName := "" |}.

(** [type Root struct { XMLName xml.Name `xml:"code_changes"` }] *)
Record Root : Type := { XMLName : xml.Name }.

Definition Root_zero : Root := {| XMLName := {| xml.Space := ""; xml.Local := "" |} |}.

Definition Root_typeInfo : xml.typeInfo Root := {|
  xml.xmlname := Some ("code_changes", fun _ n => {| XMLName := n |});
  xml.fields := []
|}.

(** [var root Root
     err := xml.Unmarshal(xmlData, &root)
     return err == nil && root.XMLName.Local == "code_changes"] *)
Definition CanHandle `{xml.TokenReader} (xmlData : list byte) : bool :=
  let (root, err) := xml.Unmarshal xmlData Root_typeInfo Root_zero in
  isNil err && String.eqb (xml.Local (XMLName root)) "code_changes".

(** [type CodeChanges struct { BranchName string `xml:"branch_name"` }] *)
Record CodeChanges : Type := { BranchName : string }.

Definition CodeChanges_zero : CodeChanges := {| BranchName := "" |}.

Definition CodeChanges_typeInfo : xml.typeInfo CodeChanges := {|
  xml.xmlname := None;
  xml.fields := [ {| xml.name := "branch_name"; xml.flags := xml.fElement;
                     xml.assign := fun _ s => {| BranchName := s |} |} ]
|}.

(** [var cc CodeChanges
     if err := xml.Unmarshal(xmlData, &cc); err != nil { return err }
     t.parsedBranchName = cc.BranchName
     return nil] *)
Definition Handle `{xml.TokenReader} (xmlData : list byte) (t : receiver) : receiver * error :=
  let (cc, err) := xml.Unmarshal xmlData CodeChanges_typeInfo CodeChanges_zero in
  match err with
  | Some e => (t, Some e)
  | None => ({| parsedBranchName := BranchName cc |}, nil)
  end.

End TestCodeChangesHandler.

(** A [*TestCodeChangesHandler] as a value of type [Handler]; the state that
    its [Handle] changes is the struct it points to. *)
Definition TestCodeChangesHandler `{xml.TokenReader}
  : Handler TestCodeChangesHandler.receiver :=
  {| CanHandle := TestCodeChangesHandler.CanHandle;
     Handle := TestCodeChangesHandler.Handle |}.

(** The payload of [TestProcessXML]. *)
Definition codeChanges : list byte :=
  bytes "<code_changes><branch_name>feature/update-docs</branch_name></code_changes>".

(** ** readme.md: the custom handler of the integration guide *)

(** [type OrderHandler struct{}] and its methods. *)
Module OrderHandler.

(** [type Root struct { XMLName xml.Name `xml:"order"` }] *)
Record Root : Type := { XMLName : xml.Name }.

Definition Root_zero : Root := {| XMLName := {| xml.Space := ""; xml.Local := "" |} |}.

Definition Root_typeInfo : xml.typeInfo Root := {|
  xml.xmlname := Some ("order", fun _ n => {| XMLName := n |});
  xml.fields := []
|}.

(** [var root Root
     err := xml.Unmarshal(xmlData, &root)
     return err == nil && root.XMLName.Local == "order"] *)
Definition CanHandle `{xml.TokenReader} (xmlData : list byte) : bool :=
  let (root, err) := xml.Unmarshal xmlData Root_typeInfo Root_zero in
  isNil err && String.eqb (xml.Local (XMLName root)) "order".

(** [type Order struct { ID string `xml:"id"` }] *)
Record Order : Type := { ID : string }.

Definition Order_zero : Order := {| ID := "" |}.

Definition Order_typeInfo : xml.typeInfo Order := {|
  xml.xmlname := None;
  xml.fields := [ {| xml.name := "id"; xml.flags := xml.fElement;
                     xml.assign := fun _ s => {| ID := s |} |} ]
|}.

(** [var order Order
     if err := xml.Unmarshal(xmlData, &order); err != nil { return err }
     fmt.Println("Processing order ID:", order.ID)
     return nil] *)
Definition Handle `{xml.TokenReader} (xmlData : list byte) (out : Stdout) : Stdout * error :=
  let (order, err) := xml.Unmarshal xmlData Order_typeInfo Order_zero in
  match err with
  | Some e => (out, Some e)
  | None => (fmt.Println "Processing order ID:" (ID order) out, nil)
  end.

End OrderHandler.

(** [&OrderHandler{}] as a value of type [Handler]. *)
Definition OrderHandler `{xml.TokenReader} : Handler Stdout :=
  {| CanHandle := OrderHandler.CanHandle; Handle := OrderHandler.Handle |}.

(** The payload of the guide's [main]. *)
Definition order12345 : list byte := bytes "<order><id>12345</id></order>".

(** The processor of the guide's [main]:
    [processor := xmldispatcher.NewXMLProcessor()
     processor.RegisterHandler(&xmldispatcher.ReportHandler{})
     processor.RegisterHandler(&OrderHandler{})] *)
Definition guideProcessor `{xml.TokenReader} : XMLProcessor Stdout :=
  RegisterHandler (RegisterHandler NewXMLProcessor (Some ReportHandler)) (Some OrderHandler).

(** A report with two data children, the first with an element inside. *)
Definition reportTwice : list byte :=
  bytes "<report><data>old<b>bold</b>er</data><data>new</data></report>".


(** ** Handlers in general: methods that read state and may panic

    The interface [Handler] of Go admits more than the record [Handler]
    above: a [CanHandle] that reads the state that [Handle] writes, and
    methods that panic.  The loop of [ProcessXML] is modelled once more for
    such handlers.  [CanHandle] reads the state and leaves it as it is. *)
Section GeneralDispatcher.

Context {World : Type}.

(** How a method call ends: it returns a value or it panics. *)
Inductive ends (A : Type) : Type :=
| Done (a : A)
| Panicked (msg : string).

Record AnyHandler : Type := {
  canHandle : list byte -> World -> ends bool;
  handle : list byte -> World -> World * ends error
}.

(** The loop of [ProcessXML] from index [i] on; a panic of a method ends the
    dispatch, as nothing recovers it. *)
Fixpoint rangeAny (hs : list (option AnyHandler)) (i : nat) (xmlData : list byte)
  (w : World) : dispatch World :=
  match hs with
  | [] => {| calls := []; world := w;
             result := Returns (fmt.Errorf "no handler found for the given XML") |}
  | None :: _ => {| calls := []; world := w; result := Panics nilDereference |}
  | Some handler :: rest =>
      match canHandle handler xmlData w with
      | Panicked _ msg => {| calls := [CanHandleCall i]; world := w; result := Panics msg |}
      | Done _ true =>
          let (w', r) := handle handler xmlData w in
          {| calls := [CanHandleCall i; HandleCall i]; world := w';
             result := match r with
                       | Done _ err => Returns err
                       | Panicked _ msg => Panics msg
                       end |}
      | Done _ false =>
          let d := rangeAny rest (S i) xmlData w in
          {| calls := CanHandleCall i :: calls d; world := world d; result := result d |}
      end
  end.

(** [ProcessXML] on a processor whose registry is [hs]. *)
Definition ProcessXML_any (hs : list (option AnyHandler)) (xmlData : list byte) (w : World)
  : dispatch World :=
  rangeAny hs 0 xmlData w.

(** A handler whose methods always return and whose [CanHandle] looks at
    the payload only. *)
Definition asAny (h : Handler World) : AnyHandler :=
  {| canHandle := fun xmlData _ => Done bool (CanHandle h xmlData);
     handle := fun xmlData w => let (w', err) := Handle h xmlData w in (w', Done error err) |}.




End GeneralDispatcher.

Arguments AnyHandler World : clear implicits.
Arguments Done {A} a.
Arguments Panicked {A} msg.

(** ** Documents: the element trees that token sequences stand for *)

Local Open Scope list_scope.

#[local] Unset Elimination Schemes.
Inductive Node : Type :=
| Element (name : xml.Name) (attr : list xml.Attr) (children : list Node) (close : xml.Name)
| Text (data : string)
| CommentNode (data : string)
| Instruction (target : string) (inst : string)
| Markup (data : string).
#[local] Set Elimination Schemes.

(** The tokens of a node, in document order. *)
Fixpoint flatten (n : Node) : list xml.Token :=
  match n with
  | Element name attr children close =>
      xml.StartElement name attr :: flat_map flatten children ++ [xml.EndElement close]
  | Text data => [xml.CharData data]
  | CommentNode data => [xml.Comment data]
  | Instruction target inst => [xml.ProcInst target inst]
  | Markup data => [xml.Directive data]
  end.

Definition flattenAll (ns : list Node) : list xml.Token := flat_map flatten ns.

Definition isStart (t : xml.Token) : bool :=
  match t with xml.StartElement _ _ => true | _ => false end.

(** [toks] holds a complete element: after tokens that start no element
    comes a start element, its content, and the end element that closes
    it.  This is what a payload must hold to be decoded at all. *)
Inductive document (toks : list xml.Token) (name : xml.Name) (attr : list xml.Attr)
  (children : list Node) : Prop :=
| document_intro (prolog : list xml.Token) (close : xml.Name) (rest : list xml.Token) :
    existsb isStart prolog = false ->
    toks = prolog ++ flatten (Element name attr children close) ++ rest ->
    document toks name attr children.

(** A payload is well formed for a reader when its tokens hold a complete
    element. *)
Definition wellFormed `{xml.TokenReader} (data : list byte) : Prop :=
  exists name attr children, document (fst (xml.tokens data)) name attr children.


(** The character data directly inside an element. *)
Fixpoint text (children : list Node) : string :=
  match children with
  | [] => ""
  | Text data :: rest => (data ++ text rest)%string
  | _ :: rest => text rest
  end.

(** The value of the attribute of a local name: the last one counts, and a
    missing attribute reads as the empty string. *)
Definition attribute (local : string) (attr : list xml.Attr) : string :=
  fold_left (fun v a => if String.eqb (xml.Local (xml.AttrName a)) local
                        then xml.Value a else v) attr "".

Definition isChild (local : string) (c : Node) : bool :=
  match c with
  | Element n _ _ _ => String.eqb local (xml.Local n)
  | _ => false
  end.

(** The text of the child element of a local name: the last one counts,
    and a missing child reads as the empty string. *)
Definition childText (local : string) (children : list Node) : string :=
  fold_left (fun s c => match c with
                        | Element n _ cs _ => if String.eqb local (xml.Local n) then text cs else s
                        | _ => s
                        end) children "".

(** Induction over element trees, with the hypothesis for all children. *)
Section NodeInduction.

Variable P : Node -> Prop.
Hypothesis P_Element : forall name attr children close,
  Forall P children -> P (Element name attr children close).
Hypothesis P_Text : forall data, P (Text data).
Hypothesis P_CommentNode : forall data, P (CommentNode data).
Hypothesis P_Instruction : forall target inst, P (Instruction target inst).
Hypothesis P_Markup : forall data, P (Markup data).

Fixpoint Node_ind (n : Node) : P n :=
  match n with
  | Element name attr children close =>
      P_Element name attr children close
        ((fix all (cs : list Node) : Forall P cs :=
            match cs with
            | [] => Forall_nil P
            | c :: cs' => Forall_cons c (Node_ind c) (all cs')
            end) children)
  | Text data => P_Text data
  | CommentNode data => P_CommentNode data
  | Instruction target inst => P_Instruction target inst
  | Markup data => P_Markup data
  end.

End NodeInduction.

(** The tokens up to [depth + 1] unmatched end elements. *)
Fixpoint unwind (levels : list (list Node * xml.Name)) : list xml.Token :=
  match levels with
  | [] => []
  | (ns, close) :: more => flattenAll ns ++ xml.EndElement close :: unwind more
  end.

(** *** What decoding a complete element gives *)

Section Fill.

Context {T : Type}.
Variable tinfo : xml.typeInfo T.

(** What a child gives to the struct: an element bound to a field assigns
    its text to the field. *)
Definition fillChild (v : T) (c : Node) : T :=
  match c with
  | Element n _ cs _ =>
      match xml.unmarshalPath tinfo n with
      | Some f => xml.assign f v (text cs)
      | None => v
      end
  | _ => v
  end.

Definition fillChildren (v : T) (children : list Node) : T :=
  fold_left fillChild children v.

(** The struct that decoding a complete element gives. *)
Definition fill (v : T) (name : xml.Name) (attr : list xml.Attr) (children : list Node)
  : T * error :=
  match xml.assignName tinfo v name with
  | inl e => (v, Some e)
  | inr v1 => (fillChildren (fold_left (xml.assignAttr tinfo) attr v1) children, nil)
  end.

End Fill.

(** The [typeInfo] of a struct with one string field bound to a child
    element, as [Report] and [Invoice]; [mk] builds the struct from the
    field. *)
Section ElementField.

Context {T : Type}.
Variable local : string.
Variable mk : string -> T.

Definition elementField : xml.typeInfo T := {|
  xml.xmlname := None;
  xml.fields := [ {| xml.name := local; xml.flags := xml.fElement;
                     xml.assign := fun _ s => mk s |} ]
|}.

Definition lastChildText (s : string) (children : list Node) : string :=
  fold_left (fun s c => match c with
                        | Element n _ cs _ => if String.eqb local (xml.Local n) then text cs else s
                        | _ => s
                        end) children s.

End ElementField.

(** Every child element of the local name is empty (there may be none). *)
Definition emptyOrAbsent (local : string) (children : list Node) : Prop :=
  forall n a cs cl, In (Element n a cs cl) children -> xml.Local n = local -> text cs = "".

(** The struct of [var v struct{}]: decoding into it succeeds exactly on
    the well-formed payloads. *)
Definition emptyStruct : xml.typeInfo unit := {| xml.xmlname := None; xml.fields := [] |}.

(** The failure of a dispatch that finds no handler. *)
Definition noHandlerFound : error := fmt.Errorf "no handler found for the given XML".

(** * Properties *)

(** ** The dispatcher *)

Section DispatcherFacts.

Context {World : Type}.
Implicit Types (hs pre post : list (option (Handler World))) (h : Handler World).
Implicit Types (xmlData : list byte) (w : World).

(** The loop passes over a prefix of entries that decline, calling
    [CanHandle] on each. *)
Lemma rangeHandlers_declined : forall pre hs i xmlData w,
  Forall (declines xmlData) pre ->
  rangeHandlers (pre ++ hs) i xmlData w =
  let d := rangeHandlers hs (i + length pre) xmlData w in
  {| calls := map CanHandleCall (seq i (length pre)) ++ calls d;
     world := world d; result := result d |}.
Proof.
  induction pre as [|e pre IH]; intros hs i xmlData w Hpre; cbn [app length seq map].
  - rewrite Nat.add_0_r. destruct (rangeHandlers hs i xmlData w); reflexivity.
  - inversion Hpre as [|e' pre' [h [-> Hno]] Hrest]; subst.
    cbn [rangeHandlers]. rewrite Hno, (IH hs (S i) xmlData w Hrest).
    cbn. rewrite Nat.add_succ_r. reflexivity.
Qed.

Lemma rangeHandlers_match : forall h post i xmlData w,
  CanHandle h xmlData = true ->
  rangeHandlers (Some h :: post) i xmlData w =
  {| calls := [CanHandleCall i; HandleCall i];
     world := fst (Handle h xmlData w);
     result := Returns (snd (Handle h xmlData w)) |}.
Proof.
  intros h post i xmlData w Hyes. cbn [rangeHandlers]. rewrite Hyes.
  destruct (Handle h xmlData w); reflexivity.
Qed.

Lemma handle_calls_le_1 : forall hs i xmlData w,
  length (filter isHandleCall (calls (rangeHandlers hs i xmlData w))) <= 1.
Proof.
  induction hs as [|[h|] hs IH]; intros i xmlData w; cbn [rangeHandlers].
  - cbn. lia.
  - destruct (CanHandle h xmlData).
    + destruct (Handle h xmlData w); cbn. lia.
    + cbn. apply IH.
  - cbn. lia.
Qed.

Lemma handlers_registerAll_from : forall (l : list (Handler World)) p,
  handlers (fold_left (fun p h => RegisterHandler p (Some h)) l p) =
  handlers p ++ map Some l.
Proof.
  induction l as [|h l IH]; intro p; cbn [fold_left map].
  - now rewrite app_nil_r.
  - rewrite IH. cbn. now rewrite <- app_assoc.
Qed.

Lemma handlers_registerAll : forall (l : list (Handler World)),
  handlers (registerAll l) = map Some l.
Proof.
  intro l. unfold registerAll. now rewrite handlers_registerAll_from.
Qed.

(** With no nil entry, what the caller observes is decided by the first
    handler, in registration order, that recognises the payload. *)
Lemma observed_first_match : forall (l : list (Handler World)) i xmlData w,
  observed (rangeHandlers (map Some l) i xmlData w) =
  match filter (fun h => CanHandle h xmlData) l with
  | [] => (w, Returns noHandlerFound)
  | h :: _ => (fst (Handle h xmlData w), Returns (snd (Handle h xmlData w)))
  end.
Proof.
  induction l as [|h l IH]; intros i xmlData w; cbn [map rangeHandlers filter].
  - reflexivity.
  - destruct (CanHandle h xmlData).
    + destruct (Handle h xmlData w); reflexivity.
    + rewrite <- (IH (S i)). reflexivity.
Qed.

Lemma Permutation_filter_keeps : forall (A : Type) (f : A -> bool) (l l' : list A),
  Permutation l l' -> Permutation (filter f l) (filter f l').
Proof.
  intros A f l l' HP. induction HP as [|x l l' _ IH|x y l|l l' l'' _ IH1 _ IH2]; cbn [filter].
  - constructor.
  - destruct (f x); [constructor|]; exact IH.
  - destruct (f x), (f y); try apply Permutation_refl. apply perm_swap.
  - eapply Permutation_trans; eassumption.
Qed.

Lemma observed_permutation : forall (l l' : list (Handler World)) xmlData w,
  Permutation l l' ->
  length (filter (fun h => CanHandle h xmlData) l) <= 1 ->
  observed (ProcessXML (registerAll l) xmlData w) =
  observed (ProcessXML (registerAll l') xmlData w).
Proof.
  intros l l' xmlData w HP Hle. unfold ProcessXML.
  rewrite !handlers_registerAll, !observed_first_match.
  pose proof (Permutation_filter_keeps _ (fun h => CanHandle h xmlData) _ _ HP) as HF.
  destruct (filter (fun h => CanHandle h xmlData) l) as [|h [|h' m]] eqn:E.
  - apply Permutation_nil in HF. now rewrite HF.
  - apply Permutation_length_1_inv in HF. now rewrite HF.
  - cbn in Hle. lia.
Qed.

End DispatcherFacts.

(** ** Decoding: tokens and element trees *)

Lemma append_assoc : forall s1 s2 s3 : string,
  ((s1 ++ s2) ++ s3)%string = (s1 ++ (s2 ++ s3))%string.
Proof.
  induction s1 as [|c s1 IH]; intros s2 s3; cbn; [reflexivity | now rewrite IH].
Qed.

Lemma append_empty_r : forall s : string, (s ++ "")%string = s.
Proof.
  induction s as [|c s IH]; cbn; [reflexivity | now rewrite IH].
Qed.

Lemma flattenAll_cons : forall n ns, flattenAll (n :: ns) = flatten n ++ flattenAll ns.
Proof. reflexivity. Qed.

Lemma flatten_Element : forall name attr children close l,
  flatten (Element name attr children close) ++ l =
  xml.StartElement name attr :: flattenAll children ++ xml.EndElement close :: l.
Proof.
  intros. cbn [flatten]. fold (flattenAll children).
  cbn [app]. now rewrite <- app_assoc.
Qed.

Lemma length_flattenAll : forall ns, length ns <= length (flattenAll ns).
Proof.
  induction ns as [|n ns IH]; [apply Nat.le_refl|].
  rewrite flattenAll_cons, length_app. cbn [length].
  destruct n; cbn [flatten length]; lia.
Qed.

Section DecodeFacts.

Variable terr : xml.readError.

(** [Skip] passes over complete nodes. *)
Lemma Skip_flatten : forall n l depth,
  xml.Skip terr (flatten n ++ l) depth = xml.Skip terr l depth.
Proof.
  induction n as [name attr children close IH|data|data|target inst|data] using Node_ind;
    intros l depth; try reflexivity.
  rewrite flatten_Element. cbn [xml.Skip].
  assert (H : forall m d, xml.Skip terr (flattenAll children ++ m) d = xml.Skip terr m d).
  { induction IH as [|c cs Hc _ IHcs]; intros m d; [reflexivity|].
    rewrite flattenAll_cons, <- app_assoc, Hc. apply IHcs. }
  rewrite H. reflexivity.
Qed.

Lemma Skip_flattenAll : forall ns l depth,
  xml.Skip terr (flattenAll ns ++ l) depth = xml.Skip terr l depth.
Proof.
  induction ns as [|n ns IH]; intros l depth; [reflexivity|].
  rewrite flattenAll_cons, <- app_assoc, Skip_flatten. apply IH.
Qed.

Lemma Skip_element : forall children close rest,
  xml.Skip terr (flattenAll children ++ xml.EndElement close :: rest) 0 = inr rest.
Proof.
  intros. now rewrite Skip_flattenAll.
Qed.

(** Whatever [Skip] consumes is made of complete nodes. *)
Lemma Skip_inv_levels : forall toks depth rest,
  xml.Skip terr toks depth = inr rest ->
  exists levels, length levels = S depth /\ toks = unwind levels ++ rest.
Proof.
  induction toks as [|t toks IH]; intros depth rest H; [discriminate|].
  destruct t as [n a|c|d|d|tg ins|d]; cbn [xml.Skip] in H.
  - apply IH in H as [levels [Hlen ->]].
    destruct levels as [|[ns1 c1] [|[ns2 c2] more]]; try discriminate.
    exists ((Element n a ns1 c1 :: ns2, c2) :: more). split.
    + cbn in *. lia.
    + cbn [unwind]. rewrite flattenAll_cons, <- !app_assoc, flatten_Element.
      cbn [app]. now rewrite <- !app_assoc.
  - destruct depth as [|depth].
    + injection H as ->. exists [([], c)]. split; reflexivity.
    + apply IH in H as [levels [Hlen ->]].
      exists (([], c) :: levels). split; [cbn; lia | reflexivity].
  - apply IH in H as [levels [Hlen ->]].
    destruct levels as [|[ns1 c1] more]; try discriminate.
    exists ((Text d :: ns1, c1) :: more). split; [exact Hlen | reflexivity].
  - apply IH in H as [levels [Hlen ->]].
    destruct levels as [|[ns1 c1] more]; try discriminate.
    exists ((CommentNode d :: ns1, c1) :: more). split; [exact Hlen | reflexivity].
  - apply IH in H as [levels [Hlen ->]].
    destruct levels as [|[ns1 c1] more]; try discriminate.
    exists ((Instruction tg ins :: ns1, c1) :: more). split; [exact Hlen | reflexivity].
  - apply IH in H as [levels [Hlen ->]].
    destruct levels as [|[ns1 c1] more]; try discriminate.
    exists ((Markup d :: ns1, c1) :: more). split; [exact Hlen | reflexivity].
Qed.

Lemma Skip_inv : forall toks rest,
  xml.Skip terr toks 0 = inr rest ->
  exists children close, toks = flattenAll children ++ xml.EndElement close :: rest.
Proof.
  intros toks rest H. apply Skip_inv_levels in H as [levels [Hlen ->]].
  destruct levels as [|[ns c] [|? ?]]; try discriminate.
  exists ns, c. cbn [unwind app]. now rewrite <- app_assoc.
Qed.

(** A string value takes the character data directly inside its element. *)
Lemma unmarshal_String_flatten : forall children fuel data close rest,
  length children < fuel ->
  xml.unmarshal_String terr fuel (flattenAll children ++ xml.EndElement close :: rest) data
  = inr ((data ++ text children)%string, rest).
Proof.
  induction children as [|c children IH]; intros fuel data close rest Hfuel;
    (destruct fuel as [|fuel]; [cbn in Hfuel; lia|]).
  - cbn. now rewrite append_empty_r.
  - assert (Hf : length children < fuel) by (cbn in Hfuel; lia).
    rewrite flattenAll_cons, <- app_assoc.
    destruct c as [n a cs c'|d|d|tg ins|d].
    + rewrite flatten_Element. cbn [xml.unmarshal_String].
      rewrite Skip_element. cbn [text]. now apply IH.
    + cbn [flatten app xml.unmarshal_String text]. rewrite IH by exact Hf.
      now rewrite append_assoc.
    + cbn [flatten app xml.unmarshal_String text]. now apply IH.
    + cbn [flatten app xml.unmarshal_String text]. now apply IH.
    + cbn [flatten app xml.unmarshal_String text]. now apply IH.
Qed.

Lemma unmarshal_String_inv : forall fuel toks data s rest,
  xml.unmarshal_String terr fuel toks data = inr (s, rest) ->
  exists children close, toks = flattenAll children ++ xml.EndElement close :: rest.
Proof.
  induction fuel as [|fuel IH]; intros toks data s rest H; [discriminate|].
  destruct toks as [|t toks]; [discriminate|].
  destruct t as [n a|c|d|d|tg ins|d]; cbn [xml.unmarshal_String] in H.
  - destruct (xml.Skip terr toks 0) as [e|rest'] eqn:ES; [discriminate|].
    apply Skip_inv in ES as [cs [c' ->]].
    apply IH in H as [ns [c ->]].
    exists (Element n a cs c' :: ns), c.
    now rewrite flattenAll_cons, <- app_assoc, flatten_Element.
  - injection H as _ ->. exists [], c. reflexivity.
  - apply IH in H as [ns [c ->]]. exists (Text d :: ns), c. reflexivity.
  - apply IH in H as [ns [c ->]]. exists (CommentNode d :: ns), c. reflexivity.
  - apply IH in H as [ns [c ->]]. exists (Instruction tg ins :: ns), c. reflexivity.
  - apply IH in H as [ns [c ->]]. exists (Markup d :: ns), c. reflexivity.
Qed.

End DecodeFacts.

Section StructFacts.

Variable terr : xml.readError.
Context {T : Type}.
Variable tinfo : xml.typeInfo T.

Lemma unmarshal_children_flatten : forall children fuel v close rest,
  length children < fuel ->
  xml.unmarshal_children terr tinfo fuel
    (flattenAll children ++ xml.EndElement close :: rest) v
  = (fillChildren tinfo v children, inr rest).
Proof.
  induction children as [|c children IH]; intros fuel v close rest Hfuel;
    (destruct fuel as [|fuel]; [cbn in Hfuel; lia|]).
  - reflexivity.
  - assert (Hf : length children < fuel) by (cbn in Hfuel; lia).
    rewrite flattenAll_cons, <- app_assoc. unfold fillChildren. cbn [fold_left].
    destruct c as [n a cs c'|d|d|tg ins|d].
    + rewrite flatten_Element. cbn [xml.unmarshal_children fillChild].
      destruct (xml.unmarshalPath tinfo n) as [f|].
      * rewrite unmarshal_String_flatten.
        -- now apply IH.
        -- rewrite length_app. pose proof (length_flattenAll cs). lia.
      * rewrite Skip_element. now apply IH.
    + cbn [flatten app xml.unmarshal_children fillChild]. now apply IH.
    + cbn [flatten app xml.unmarshal_children fillChild]. now apply IH.
    + cbn [flatten app xml.unmarshal_children fillChild]. now apply IH.
    + cbn [flatten app xml.unmarshal_children fillChild]. now apply IH.
Qed.

Lemma unmarshal_children_inv : forall fuel toks v v' rest,
  xml.unmarshal_children terr tinfo fuel toks v = (v', inr rest) ->
  exists children close, toks = flattenAll children ++ xml.EndElement close :: rest.
Proof.
  induction fuel as [|fuel IH]; intros toks v v' rest H; [discriminate|].
  destruct toks as [|t toks]; [discriminate|].
  destruct t as [n a|c|d|d|tg ins|d]; cbn [xml.unmarshal_children] in H.
  - destruct (xml.unmarshalPath tinfo n) as [f|].
    + destruct (xml.unmarshal_String terr (S (length toks)) toks "") as [e|[s rest']] eqn:ES;
        [discriminate|].
      apply unmarshal_String_inv in ES as [cs [c' ->]].
      apply IH in H as [ns [c ->]].
      exists (Element n a cs c' :: ns), c.
      now rewrite flattenAll_cons, <- app_assoc, flatten_Element.
    + destruct (xml.Skip terr toks 0) as [e|rest'] eqn:ES; [discriminate|].
      apply Skip_inv in ES as [cs [c' ->]].
      apply IH in H as [ns [c ->]].
      exists (Element n a cs c' :: ns), c.
      now rewrite flattenAll_cons, <- app_assoc, flatten_Element.
  - injection H as _ ->. exists [], c. reflexivity.
  - apply IH in H as [ns [c ->]]. exists (Text d :: ns), c. reflexivity.
  - apply IH in H as [ns [c ->]]. exists (CommentNode d :: ns), c. reflexivity.
  - apply IH in H as [ns [c ->]]. exists (Instruction tg ins :: ns), c. reflexivity.
  - apply IH in H as [ns [c ->]]. exists (Markup d :: ns), c. reflexivity.
Qed.

Lemma findStart_prolog : forall prolog name attr rest,
  existsb isStart prolog = false ->
  xml.findStart (prolog ++ xml.StartElement name attr :: rest) = Some (name, attr, rest).
Proof.
  induction prolog as [|t prolog IH]; intros name attr rest H; [reflexivity|].
  cbn [existsb] in H. apply orb_false_elim in H as [Ht H].
  destruct t; try discriminate; cbn [app xml.findStart]; now apply IH.
Qed.

Lemma findStart_inv : forall toks name attr rest,
  xml.findStart toks = Some (name, attr, rest) ->
  exists prolog, existsb isStart prolog = false /\
                 toks = prolog ++ xml.StartElement name attr :: rest.
Proof.
  induction toks as [|t toks IH]; intros name attr rest H; [discriminate|].
  destruct t as [n a|c|d|d|tg ins|d]; cbn [xml.findStart] in H;
    try (apply IH in H as [prolog [Hp ->]];
         match goal with |- context [?t :: prolog ++ _] => exists (t :: prolog) end;
         split; [exact Hp | reflexivity]).
  injection H as -> -> ->. exists []. split; reflexivity.
Qed.

(** Decoding a complete element fills the struct from the element tree. *)
Lemma Decode_document : forall toks name attr children v,
  document toks name attr children ->
  xml.Decode terr tinfo toks v = fill tinfo v name attr children.
Proof.
  intros toks name attr children v [prolog close rest Hp ->].
  unfold xml.Decode, fill. rewrite flatten_Element, findStart_prolog by exact Hp.
  unfold xml.unmarshal_Struct.
  destruct (xml.assignName tinfo v name) as [e|v1]; [reflexivity|].
  rewrite unmarshal_children_flatten; [reflexivity|].
  rewrite length_app. pose proof (length_flattenAll children). lia.
Qed.

(** Decoding succeeds only on a complete element. *)
Lemma Decode_nil_inv : forall toks v,
  snd (xml.Decode terr tinfo toks v) = nil ->
  exists name attr children, document toks name attr children.
Proof.
  intros toks v H. unfold xml.Decode in H.
  destruct (xml.findStart toks) as [[[name attr] rest]|] eqn:EF; [|discriminate].
  apply findStart_inv in EF as [prolog [Hp ->]].
  unfold xml.unmarshal_Struct in H.
  destruct (xml.assignName tinfo v name) as [e|v1]; [discriminate|].
  destruct (xml.unmarshal_children terr tinfo (S (length rest)) rest
              (fold_left (xml.assignAttr tinfo) attr v1)) as [v2 [e|rest']] eqn:EC;
    [discriminate|].
  apply unmarshal_children_inv in EC as [children [close ->]].
  exists name, attr, children. apply (document_intro _ _ _ _ prolog close rest' Hp).
  now rewrite flatten_Element.
Qed.

End StructFacts.

(** The only errors of decoding: the error that ends the token sequence,
    and the mismatch of the element name with the [XMLName] tag. *)
Section DecodeErrors.

Variable terr : xml.readError.

Lemma Skip_error : forall toks depth e,
  xml.Skip terr toks depth = inl e -> e = xml.readError_error terr.
Proof.
  induction toks as [|t toks IH]; intros depth e H; cbn [xml.Skip] in H.
  - now injection H as <-.
  - destruct t; try (now apply IH in H).
    destruct depth; [discriminate | now apply IH in H].
Qed.

Lemma unmarshal_String_error : forall fuel toks data e,
  xml.unmarshal_String terr fuel toks data = inl e -> e = xml.readError_error terr.
Proof.
  induction fuel as [|fuel IH]; intros toks data e H; cbn [xml.unmarshal_String] in H.
  - now injection H as <-.
  - destruct toks as [|t toks]; [now injection H as <-|].
    destruct t; try (now apply IH in H); [|discriminate].
    destruct (xml.Skip terr toks 0) as [e'|rest] eqn:ES.
    + injection H as <-. now apply Skip_error in ES.
    + now apply IH in H.
Qed.

Context {T : Type}.
Variable tinfo : xml.typeInfo T.

Lemma unmarshal_children_error : forall fuel toks v v' e,
  xml.unmarshal_children terr tinfo fuel toks v = (v', inl e) ->
  e = xml.readError_error terr.
Proof.
  induction fuel as [|fuel IH]; intros toks v v' e H; cbn [xml.unmarshal_children] in H.
  - now injection H as _ <-.
  - destruct toks as [|t toks]; [now injection H as _ <-|].
    destruct t; try (now apply IH in H); [|discriminate].
    destruct (xml.unmarshalPath tinfo name) as [f|].
    + destruct (xml.unmarshal_String terr (S (length toks)) toks "") as [e'|[s rest]] eqn:ES.
      * injection H as _ <-. now apply unmarshal_String_error in ES.
      * now apply IH in H.
    + destruct (xml.Skip terr toks 0) as [e'|rest] eqn:ES.
      * injection H as _ <-. now apply Skip_error in ES.
      * now apply IH in H.
Qed.

Lemma Decode_error : forall toks v e,
  snd (xml.Decode terr tinfo toks v) = Some e ->
  e = xml.readError_error terr \/
  exists tag have, e = UnmarshalError
    ("expected element type <" ++ tag ++ "> but have <" ++ have ++ ">")%string.
Proof.
  intros toks v e H. unfold xml.Decode in H.
  destruct (xml.findStart toks) as [[[name attr] rest]|].
  - unfold xml.unmarshal_Struct, xml.assignName in H.
    destruct (xml.xmlname tinfo) as [[n set]|].
    + destruct (negb (n =? "")%string && negb (n =? xml.Local name)%string).
      * injection H as <-. right. now exists n, (xml.Local name).
      * destruct (xml.unmarshal_children terr tinfo (S (length rest)) rest
                    (fold_left (xml.assignAttr tinfo) attr (set v name)))
          as [v2 [e'|rest']] eqn:EC; [|discriminate].
        injection H as <-. left. now apply unmarshal_children_error in EC.
    + destruct (xml.unmarshal_children terr tinfo (S (length rest)) rest
                  (fold_left (xml.assignAttr tinfo) attr v))
        as [v2 [e'|rest']] eqn:EC; [|discriminate].
      injection H as <-. left. now apply unmarshal_children_error in EC.
  - injection H as <-. now left.
Qed.

End DecodeErrors.

(** No error of decoding reads as the dispatcher's own failure. *)
Lemma Decode_error_message : forall terr (T : Type) (tinfo : xml.typeInfo T) toks v e,
  snd (xml.Decode terr tinfo toks v) = Some e ->
  Error e <> "no handler found for the given XML" /\ Some e <> noHandlerFound.
Proof.
  intros terr T tinfo toks v e H.
  apply Decode_error in H as [->|[tag [have ->]]].
  - destruct terr; split; cbn; discriminate.
  - split; cbn; discriminate.
Qed.

(** ** The example handlers *)

(** A struct with one string field bound to a child element, and a struct
    with no field bound to a child element. *)
Section FieldFacts.

Context {T : Type}.

Lemma fillChildren_no_element : forall (tinfo : xml.typeInfo T) v children,
  (forall n, xml.unmarshalPath tinfo n = None) ->
  fillChildren tinfo v children = v.
Proof.
  intros tinfo v children Hnone. unfold fillChildren.
  induction children as [|c children IH]; [reflexivity|].
  cbn [fold_left]. destruct c; cbn [fillChild]; try exact IH.
  now rewrite Hnone.
Qed.

Variable local : string.
Variable mk : string -> T.

Lemma fillChildren_elementField : forall children s,
  fillChildren (elementField local mk) (mk s) children = mk (lastChildText local s children).
Proof.
  unfold fillChildren, lastChildText.
  induction children as [|c children IH]; intro s; [reflexivity|].
  cbn [fold_left]. destruct c as [n a cs cl|d|d|tg ins|d]; cbn [fillChild]; try apply IH.
  unfold xml.unmarshalPath. cbn [elementField xml.fields find xml.isElement xml.flags xml.name].
  cbn [andb]. destruct (local =? xml.Local n)%string; cbn [xml.assign]; apply IH.
Qed.

Lemma assignAttr_elementField : forall attr v,
  fold_left (xml.assignAttr (elementField local mk)) attr v = v.
Proof.
  induction attr as [|a attr IH]; intro v; [reflexivity|].
  cbn [fold_left]. exact (IH v).
Qed.

Lemma fill_elementField : forall s name attr children,
  fill (elementField local mk) (mk s) name attr children = (mk (lastChildText local s children), nil).
Proof.
  intros. unfold fill. cbn [xml.assignName elementField xml.xmlname].
  unfold xml.assignName. cbn [xml.xmlname elementField].
  fold (elementField local mk). now rewrite assignAttr_elementField, fillChildren_elementField.
Qed.

End FieldFacts.

Lemma childText_absent : forall local children,
  (forall c, In c children -> isChild local c = false) ->
  childText local children = "".
Proof.
  intros local children. unfold childText. generalize EmptyString as s.
  induction children as [|c children IH]; intros s H; [reflexivity|].
  cbn [fold_left]. specialize (IH s (fun c' Hc => H c' (or_intror Hc))).
  specialize (H c (or_introl eq_refl)).
  destruct c; try exact IH. cbn [isChild] in H. now rewrite H.
Qed.

Lemma childText_emptyOrAbsent : forall local children,
  emptyOrAbsent local children -> childText local children = "".
Proof.
  intros local children. unfold childText, emptyOrAbsent.
  induction children as [|c children IH] using rev_ind; intro H; [reflexivity|].
  rewrite fold_left_app. cbn [fold_left].
  destruct c as [n a cs cl|d|d|tg ins|d];
    try (apply IH; intros n' a' cs' cl' Hin; apply (H n' a' cs' cl'), in_or_app; now left).
  destruct (String.eqb_spec local (xml.Local n)) as [E|_].
  - apply (H n a cs cl); [apply in_or_app; right; now left | now symmetry].
  - apply IH. intros n' a' cs' cl' Hin. apply (H n' a' cs' cl'), in_or_app. now left.
Qed.

Section HandlerFacts.

Context `{reader : xml.TokenReader}.

Lemma Unmarshal_document : forall (T : Type) (tinfo : xml.typeInfo T) xmlData v name attr children,
  document (fst (xml.tokens xmlData)) name attr children ->
  xml.Unmarshal xmlData tinfo v = fill tinfo v name attr children.
Proof.
  intros. unfold xml.Unmarshal. now apply Decode_document.
Qed.

Lemma Unmarshal_nil_wellFormed : forall (T : Type) (tinfo : xml.typeInfo T) xmlData v,
  snd (xml.Unmarshal xmlData tinfo v) = nil -> wellFormed xmlData.
Proof.
  intros T tinfo xmlData v H. unfold xml.Unmarshal in H.
  now apply Decode_nil_inv in H.
Qed.

Lemma wellFormed_decodes : forall xmlData,
  wellFormed xmlData <-> snd (xml.Unmarshal xmlData emptyStruct tt) = nil.
Proof.
  intro xmlData. split.
  - intros [name [attr [children Hdoc]]].
    now rewrite (Unmarshal_document _ _ _ _ _ _ _ Hdoc).
  - apply Unmarshal_nil_wellFormed.
Qed.

Lemma ReportHandler_Root_fill : forall name attr children,
  fill ReportHandler.Root_typeInfo ReportHandler.Root_zero name attr children =
  if ("report" =? xml.Local name)%string
  then ({| ReportHandler.XMLName := name |}, nil)
  else (ReportHandler.Root_zero,
        Some (UnmarshalError ("expected element type <report> but have <"
                              ++ xml.Local name ++ ">")%string)).
Proof.
  intros. unfold fill, xml.assignName.
  cbn [xml.xmlname ReportHandler.Root_typeInfo].
  change ("report" =? "")%string with false. cbn [negb andb].
  destruct ("report" =? xml.Local name)%string; cbn [negb]; [|reflexivity].
  rewrite fillChildren_no_element by reflexivity.
  f_equal. induction attr as [|a attr IH]; [reflexivity | exact IH].
Qed.

Lemma ReportHandler_CanHandle_iff : forall xmlData,
  ReportHandler.CanHandle xmlData = true <->
  exists name attr children,
    document (fst (xml.tokens xmlData)) name attr children /\ xml.Local name = "report".
Proof.
  intro xmlData. unfold ReportHandler.CanHandle. split.
  - intro H.
    destruct (xml.Unmarshal xmlData ReportHandler.Root_typeInfo ReportHandler.Root_zero)
      as [root err] eqn:EU.
    destruct err as [e|]; [discriminate|].
    assert (Hwf : wellFormed xmlData).
    { apply (Unmarshal_nil_wellFormed _ ReportHandler.Root_typeInfo _ ReportHandler.Root_zero).
      now rewrite EU. }
    destruct Hwf as [name [attr [children Hdoc]]].
    exists name, attr, children. split; [exact Hdoc|].
    rewrite (Unmarshal_document _ _ _ _ _ _ _ Hdoc), ReportHandler_Root_fill in EU.
    destruct (String.eqb_spec "report" (xml.Local name)); [congruence | discriminate].
  - intros [name [attr [children [Hdoc Hname]]]].
    rewrite (Unmarshal_document _ _ _ _ _ _ _ Hdoc), ReportHandler_Root_fill, Hname.
    cbn. now rewrite Hname.
Qed.

Lemma InvoiceHandler_Root_attrs : forall attr v,
  fold_left (xml.assignAttr InvoiceHandler.Root_typeInfo) attr v =
  {| InvoiceHandler.XMLName := InvoiceHandler.XMLName v;
     InvoiceHandler.Type_ :=
       fold_left (fun s a => if (xml.Local (xml.AttrName a) =? "type")%string
                             then xml.Value a else s) attr (InvoiceHandler.Type_ v) |}.
Proof.
  induction attr as [|a attr IH]; intro v; [now destruct v|].
  cbn [fold_left]. rewrite IH. unfold xml.assignAttr.
  cbn [fold_left InvoiceHandler.Root_typeInfo xml.fields xml.isAttr xml.flags xml.name
       xml.assign andb].
  destruct (xml.Local (xml.AttrName a) =? "type")%string; reflexivity.
Qed.

Lemma InvoiceHandler_Root_fill : forall name attr children,
  fill InvoiceHandler.Root_typeInfo InvoiceHandler.Root_zero name attr children =
  if ("invoice" =? xml.Local name)%string
  then ({| InvoiceHandler.XMLName := name; InvoiceHandler.Type_ := attribute "type" attr |}, nil)
  else (InvoiceHandler.Root_zero,
        Some (UnmarshalError ("expected element type <invoice> but have <"
                              ++ xml.Local name ++ ">")%string)).
Proof.
  intros. unfold fill, xml.assignName.
  cbn [xml.xmlname InvoiceHandler.Root_typeInfo].
  change ("invoice" =? "")%string with false. cbn [negb andb].
  destruct ("invoice" =? xml.Local name)%string; cbn [negb]; [|reflexivity].
  rewrite fillChildren_no_element by reflexivity.
  now rewrite InvoiceHandler_Root_attrs.
Qed.

Lemma InvoiceHandler_CanHandle_iff : forall xmlData,
  InvoiceHandler.CanHandle xmlData = true <->
  exists name attr children,
    document (fst (xml.tokens xmlData)) name attr children /\
    xml.Local name = "invoice" /\ attribute "type" attr = "sales".
Proof.
  intro xmlData. unfold InvoiceHandler.CanHandle. split.
  - intro H.
    destruct (xml.Unmarshal xmlData InvoiceHandler.Root_typeInfo InvoiceHandler.Root_zero)
      as [root err] eqn:EU.
    destruct err as [e|]; [discriminate|].
    assert (Hwf : wellFormed xmlData).
    { apply (Unmarshal_nil_wellFormed _ InvoiceHandler.Root_typeInfo _ InvoiceHandler.Root_zero).
      now rewrite EU. }
    destruct Hwf as [name [attr [children Hdoc]]].
    exists name, attr, children. split; [exact Hdoc|].
    rewrite (Unmarshal_document _ _ _ _ _ _ _ Hdoc), InvoiceHandler_Root_fill in EU.
    destruct (String.eqb_spec "invoice" (xml.Local name)) as [E|]; [|discriminate].
    injection EU as <-. cbn in H. rewrite <- E in H. cbn in H.
    split; [now symmetry | now apply String.eqb_eq].
  - intros [name [attr [children [Hdoc [Hname Htype]]]]].
    rewrite (Unmarshal_document _ _ _ _ _ _ _ Hdoc), InvoiceHandler_Root_fill, Hname.
    cbn. rewrite Hname, Htype. reflexivity.
Qed.

Lemma ReportHandler_Report_decode : forall xmlData name attr children,
  document (fst (xml.tokens xmlData)) name attr children ->
  xml.Unmarshal xmlData ReportHandler.Report_typeInfo ReportHandler.Report_zero =
  ({| ReportHandler.Data := childText "data" children |}, nil).
Proof.
  intros xmlData name attr children Hdoc.
  rewrite (Unmarshal_document _ _ _ _ _ _ _ Hdoc).
  exact (fill_elementField "data" (fun s => {| ReportHandler.Data := s |}) "" name attr children).
Qed.

Lemma InvoiceHandler_Invoice_decode : forall xmlData name attr children,
  document (fst (xml.tokens xmlData)) name attr children ->
  xml.Unmarshal xmlData InvoiceHandler.Invoice_typeInfo InvoiceHandler.Invoice_zero =
  ({| InvoiceHandler.Amount := childText "amount" children |}, nil).
Proof.
  intros xmlData name attr children Hdoc.
  rewrite (Unmarshal_document _ _ _ _ _ _ _ Hdoc).
  exact (fill_elementField "amount" (fun s => {| InvoiceHandler.Amount := s |}) "" name attr children).
Qed.

Lemma ReportHandler_Handle_document : forall xmlData name attr children out,
  document (fst (xml.tokens xmlData)) name attr children ->
  ReportHandler.Handle xmlData out =
  (fmt.Println "Processing report:" (childText "data" children) out, nil).
Proof.
  intros. unfold ReportHandler.Handle.
  now rewrite (ReportHandler_Report_decode _ _ _ _ H).
Qed.

Lemma InvoiceHandler_Handle_document : forall xmlData name attr children out,
  document (fst (xml.tokens xmlData)) name attr children ->
  InvoiceHandler.Handle xmlData out =
  (fmt.Println "Processing invoice amount:" (childText "amount" children) out, nil).
Proof.
  intros. unfold InvoiceHandler.Handle.
  now rewrite (InvoiceHandler_Invoice_decode _ _ _ _ H).
Qed.

(** [CanHandle] has decoded the whole element before it answers true, so
    [Handle] of the same example handler cannot fail on a payload that it
    recognised. *)
Lemma recognised_payload_is_handled : forall xmlData out,
  (CanHandle ReportHandler xmlData = true -> snd (Handle ReportHandler xmlData out) = nil)
  /\ (CanHandle InvoiceHandler xmlData = true -> snd (Handle InvoiceHandler xmlData out) = nil).
Proof.
  intros xmlData out. split; intro Hyes; cbn [CanHandle Handle ReportHandler InvoiceHandler] in *.
  - apply ReportHandler_CanHandle_iff in Hyes as [n [a [cs [Hdoc _]]]].
    now rewrite (ReportHandler_Handle_document _ _ _ _ out Hdoc).
  - apply InvoiceHandler_CanHandle_iff in Hyes as [n [a [cs [Hdoc _]]]].
    now rewrite (InvoiceHandler_Handle_document _ _ _ _ out Hdoc).
Qed.

End HandlerFacts.

(** ** Scenarios on payloads of the plain fragment *)

Lemma Unmarshal_plain : forall `{reader : xml.TokenReader} (T : Type) (tinfo : xml.typeInfo T)
  xmlData v toks e,
  xml.plain.tokens xmlData = Some (toks, e) ->
  xml.Unmarshal xmlData tinfo v = xml.Decode e tinfo toks v.
Proof.
  intros reader T tinfo xmlData v toks e H.
  unfold xml.Unmarshal. now rewrite (xml.tokens_plain _ _ H).
Qed.

(** Evaluates the handlers on a closed payload of the plain fragment. *)
Ltac plain_payload :=
  unfold ReportHandler.CanHandle, ReportHandler.Handle,
         InvoiceHandler.CanHandle, InvoiceHandler.Handle;
  repeat (erewrite Unmarshal_plain by (vm_compute; reflexivity));
  vm_compute; try reflexivity.

Section Scenarios.

Context `{reader : xml.TokenReader}.

Lemma document_reportHello :
  document (fst (xml.tokens reportHello))
    {| xml.Space := ""; xml.Local := "report" |} []
    [Element {| xml.Space := ""; xml.Local := "data" |} [] [Text "Hello"]
             {| xml.Space := ""; xml.Local := "data" |}].
Proof.
  apply (document_intro _ _ _ _ [] {| xml.Space := ""; xml.Local := "report" |} []);
    [reflexivity|].
  erewrite xml.tokens_plain by (vm_compute; reflexivity). reflexivity.
Qed.

Lemma document_invoiceOther :
  document (fst (xml.tokens invoiceOther))
    {| xml.Space := ""; xml.Local := "invoice" |}
    [{| xml.AttrName := {| xml.Space := ""; xml.Local := "type" |}; xml.Value := "other" |}]
    [].
Proof.
  apply (document_intro _ _ _ _ [] {| xml.Space := ""; xml.Local := "invoice" |} []);
    [reflexivity|].
  erewrite xml.tokens_plain by (vm_compute; reflexivity). reflexivity.
Qed.

Lemma ReportHandler_CanHandle_reportHello : ReportHandler.CanHandle reportHello = true.
Proof. plain_payload. Qed.

Lemma InvoiceHandler_CanHandle_invoiceOther : InvoiceHandler.CanHandle invoiceOther = false.
Proof. plain_payload. Qed.

Lemma ReportHandler_CanHandle_invoiceOther : ReportHandler.CanHandle invoiceOther = false.
Proof. plain_payload. Qed.






Lemma truncated_not_wellFormed : ~ wellFormed truncated.
Proof.
  rewrite wellFormed_decodes.
  erewrite Unmarshal_plain by (vm_compute; reflexivity). vm_compute. discriminate.
Qed.


End Scenarios.

(** * The claims *)

(** C1. For every registry and payload, [ProcessXML] calls [CanHandle] on
    the entries in registration order; at the first handler whose
    [CanHandle] returns true it returns that handler's [Handle] result as
    it is, nil or not, with the state that [Handle] left, and calls nothing
    on a later entry.  No dispatch calls [Handle] more than once. *)
Theorem ProcessXML_first_match :
  forall (World : Type) (p : XMLProcessor World) (xmlData : list byte) (w : World),
  length (filter isHandleCall (calls (ProcessXML p xmlData w))) <= 1 /\
  forall pre h post,
    handlers p = pre ++ Some h :: post ->
    Forall (declines xmlData) pre ->
    CanHandle h xmlData = true ->
    ProcessXML p xmlData w =
    {| calls := map CanHandleCall (seq 0 (length pre))
                ++ [CanHandleCall (length pre); HandleCall (length pre)];
       world := fst (Handle h xmlData w);
       result := Returns (snd (Handle h xmlData w)) |}.
Proof.
  intros World p xmlData w. split.
  - apply handle_calls_le_1.
  - intros pre h post Hp Hpre Hyes. unfold ProcessXML. rewrite Hp.
    rewrite rangeHandlers_declined by exact Hpre.
    rewrite rangeHandlers_match by exact Hyes. reflexivity.
Qed.

(** The invoice handler declines, the next handler accepts and fails: its
    failure is the result, and the report handler behind it is not asked. *)
Lemma ProcessXML_first_match_witness :
  ProcessXML (World := Stdout)
    {| handlers := [Some (@InvoiceHandler plainReader); Some failingHandler;
                    Some (@ReportHandler plainReader)] |}
    reportHello "" =
  {| calls := [CanHandleCall 0; CanHandleCall 1; HandleCall 1];
     world := "";
     result := Returns (Some (errorString "cannot process")) |}.
Proof.
  refine (proj2 (ProcessXML_first_match Stdout
                   {| handlers := [Some (@InvoiceHandler plainReader); Some failingHandler;
                                   Some (@ReportHandler plainReader)] |}
                   reportHello "")
            [Some (@InvoiceHandler plainReader)] failingHandler
            [Some (@ReportHandler plainReader)] eq_refl _ eq_refl).
  constructor; [|constructor].
  exists (@InvoiceHandler plainReader). split; [reflexivity|].
  vm_compute. reflexivity.
Defined.

(** C2. When every registered entry is a handler whose [CanHandle] returns
    false (in particular on a new processor, with no handler), [ProcessXML]
    returns the error whose message is "no handler found for the given
    XML" and changes nothing; no error that [Handle] of an example handler
    returns is that error or has that message. *)
Theorem ProcessXML_no_handler_found : forall `{reader : xml.TokenReader},
  (forall (World : Type) (p : XMLProcessor World) (xmlData : list byte) (w : World),
     Forall (declines xmlData) (handlers p) ->
     ProcessXML p xmlData w =
     {| calls := map CanHandleCall (seq 0 (length (handlers p)));
        world := w;
        result := Returns (Some (errorString "no handler found for the given XML")) |})
  /\ (forall (World : Type) (w : World),
        ProcessXML NewXMLProcessor unknown w =
        {| calls := []; world := w;
           result := Returns (Some (errorString "no handler found for the given XML")) |})
  /\ (forall (xmlData : list byte) (out : Stdout) (e : error_value),
        snd (Handle ReportHandler xmlData out) = Some e \/
        snd (Handle InvoiceHandler xmlData out) = Some e ->
        Error e <> "no handler found for the given XML" /\
        Some e <> fmt.Errorf "no handler found for the given XML").
Proof.
  intro reader. split; [|split].
  - intros World p xmlData w Hall. unfold ProcessXML.
    pose proof (rangeHandlers_declined (handlers p) [] 0 xmlData w Hall) as H.
    rewrite app_nil_r in H. rewrite H. cbn. now rewrite app_nil_r.
  - reflexivity.
  - intros xmlData out e [H|H]; cbn [Handle ReportHandler InvoiceHandler] in H.
    + unfold ReportHandler.Handle, xml.Unmarshal in H.
      destruct (xml.Decode (snd (xml.tokens xmlData)) ReportHandler.Report_typeInfo
                  (fst (xml.tokens xmlData)) ReportHandler.Report_zero) as [v [e'|]] eqn:ED;
        [|discriminate].
      injection H as <-. eapply Decode_error_message. rewrite ED. reflexivity.
    + unfold InvoiceHandler.Handle, xml.Unmarshal in H.
      destruct (xml.Decode (snd (xml.tokens xmlData)) InvoiceHandler.Invoice_typeInfo
                  (fst (xml.tokens xmlData)) InvoiceHandler.Invoice_zero) as [v [e'|]] eqn:ED;
        [|discriminate].
      injection H as <-. eapply Decode_error_message. rewrite ED. reflexivity.
Qed.

(** Both example handlers decline the unknown payload; the report handler
    fails on the truncated payload with a syntax error. *)
Lemma ProcessXML_no_handler_found_witness :
  ProcessXML (registerAll [@ReportHandler plainReader; @InvoiceHandler plainReader]) unknown ""
  = {| calls := [CanHandleCall 0; CanHandleCall 1]; world := "";
       result := Returns (Some (errorString "no handler found for the given XML")) |}
  /\ Error (SyntaxError "unexpected EOF" 1) <> "no handler found for the given XML".
Proof.
  split.
  - refine (proj1 (@ProcessXML_no_handler_found plainReader) Stdout
              (registerAll [@ReportHandler plainReader; @InvoiceHandler plainReader])
              unknown "" _).
    repeat constructor; eexists; (split; [reflexivity | vm_compute; reflexivity]).
  - refine (proj1 (proj2 (proj2 (@ProcessXML_no_handler_found plainReader))
                     truncated "" (SyntaxError "unexpected EOF" 1) _)).
    left. vm_compute. reflexivity.
Defined.








(** C6. When decoding fails in [Handle] of an example handler, [Handle]
    returns the decoder's error itself and prints nothing; and when the
    handler that a dispatch chose returns an error, [ProcessXML] returns
    that same error. *)
Theorem decode_failure_unchanged : forall `{reader : xml.TokenReader},
  (forall (xmlData : list byte) (out : Stdout) (e : error_value),
     snd (xml.Unmarshal xmlData ReportHandler.Report_typeInfo ReportHandler.Report_zero) = Some e ->
     Handle ReportHandler xmlData out = (out, Some e))
  /\ (forall (xmlData : list byte) (out : Stdout) (e : error_value),
        snd (xml.Unmarshal xmlData InvoiceHandler.Invoice_typeInfo InvoiceHandler.Invoice_zero)
        = Some e ->
        Handle InvoiceHandler xmlData out = (out, Some e))
  /\ (forall (World : Type) (p : XMLProcessor World) pre h post xmlData w e,
        handlers p = pre ++ Some h :: post ->
        Forall (declines xmlData) pre ->
        CanHandle h xmlData = true ->
        snd (Handle h xmlData w) = Some e ->
        result (ProcessXML p xmlData w) = Returns (Some e)).
Proof.
  intro reader. split; [|split].
  - intros xmlData out e He. cbn [Handle ReportHandler]. unfold ReportHandler.Handle.
    destruct (xml.Unmarshal xmlData ReportHandler.Report_typeInfo ReportHandler.Report_zero)
      as [v err]. cbn [snd] in He. now rewrite He.
  - intros xmlData out e He. cbn [Handle InvoiceHandler]. unfold InvoiceHandler.Handle.
    destruct (xml.Unmarshal xmlData InvoiceHandler.Invoice_typeInfo InvoiceHandler.Invoice_zero)
      as [v err]. cbn [snd] in He. now rewrite He.
  - intros World p pre h post xmlData w e Hp Hpre Hyes He. unfold ProcessXML. rewrite Hp.
    rewrite rangeHandlers_declined by exact Hpre.
    rewrite rangeHandlers_match by exact Hyes. cbn. now rewrite He.
Qed.

(** The syntax error of the truncated payload comes back from [Handle] and
    from the dispatch as it left the decoder. *)
Lemma decode_failure_unchanged_witness :
  Handle (@ReportHandler plainReader) truncated "" = ("", Some (SyntaxError "unexpected EOF" 1))
  /\ result (ProcessXML (registerAll [@InvoiceHandler plainReader;
                                      @eagerReportHandler plainReader]) truncated "")
     = Returns (Some (SyntaxError "unexpected EOF" 1)).
Proof.
  split.
  - refine (proj1 (@decode_failure_unchanged plainReader) truncated ""
              (SyntaxError "unexpected EOF" 1) _).
    vm_compute. reflexivity.
  - refine (proj2 (proj2 (@decode_failure_unchanged plainReader)) Stdout
              (registerAll [@InvoiceHandler plainReader; @eagerReportHandler plainReader])
              [Some (@InvoiceHandler plainReader)] (@eagerReportHandler plainReader) []
              truncated "" (SyntaxError "unexpected EOF" 1) eq_refl _ eq_refl _).
    + constructor; [|constructor]. eexists. split; [reflexivity | vm_compute; reflexivity].
    + vm_compute. reflexivity.
Defined.

Lemma document_reportEmptyData :
  document (fst (@xml.tokens plainReader reportEmptyData))
    {| xml.Space := ""; xml.Local := "report" |} []
    [Element {| xml.Space := ""; xml.Local := "data" |} [] []
             {| xml.Space := ""; xml.Local := "data" |}].
Proof.
  now apply (document_intro _ _ _ _ [] {| xml.Space := ""; xml.Local := "report" |} []).
Qed.

Lemma document_reportNoData :
  document (fst (@xml.tokens plainReader reportNoData))
    {| xml.Space := ""; xml.Local := "report" |} [] [].
Proof.
  now apply (document_intro _ _ _ _ [] {| xml.Space := ""; xml.Local := "report" |} []).
Qed.

(** C7. Dispatching <report><data>Hello</data></report> with a report
    handler registered succeeds, the decoded field is "Hello" and that is
    what is printed.  On a payload that holds a complete report element
    whose data children are empty, or that has none, decoding gives the
    empty string and [Handle] succeeds, printing it. *)
Theorem ReportHandler_extracts_data : forall `{reader : xml.TokenReader},
  (forall out : Stdout,
     ProcessXML (RegisterHandler NewXMLProcessor (Some ReportHandler)) reportHello out =
     {| calls := [CanHandleCall 0; HandleCall 0];
        world := fmt.Println "Processing report:" "Hello" out;
        result := Returns nil |})
  /\ xml.Unmarshal reportHello ReportHandler.Report_typeInfo ReportHandler.Report_zero
     = ({| ReportHandler.Data := "Hello" |}, nil)
  /\ (forall (xmlData : list byte) name attr children (out : Stdout),
        document (fst (xml.tokens xmlData)) name attr children ->
        xml.Local name = "report" ->
        emptyOrAbsent "data" children ->
        xml.Unmarshal xmlData ReportHandler.Report_typeInfo ReportHandler.Report_zero
        = ({| ReportHandler.Data := "" |}, nil)
        /\ Handle ReportHandler xmlData out = (fmt.Println "Processing report:" "" out, nil)).
Proof.
  intro reader. split; [|split].
  - intro out. unfold ProcessXML.
    cbn [RegisterHandler NewXMLProcessor handlers app rangeHandlers CanHandle Handle ReportHandler].
    rewrite ReportHandler_CanHandle_reportHello.
    now rewrite (ReportHandler_Handle_document _ _ _ _ out document_reportHello).
  - now rewrite (ReportHandler_Report_decode _ _ _ _ document_reportHello).
  - intros xmlData name attr children out Hdoc _ Hempty. cbn [Handle ReportHandler].
    rewrite (ReportHandler_Handle_document _ _ _ _ out Hdoc).
    rewrite (ReportHandler_Report_decode _ _ _ _ Hdoc).
    now rewrite (childText_emptyOrAbsent _ _ Hempty).
Qed.

(** The report with an empty data child and the report with no data child
    both print the empty string. *)
Lemma ReportHandler_extracts_data_witness :
  Handle (@ReportHandler plainReader) reportEmptyData "" = (fmt.Println "Processing report:" "" "", nil)
  /\ Handle (@ReportHandler plainReader) reportNoData "" = (fmt.Println "Processing report:" "" "", nil).
Proof.
  split.
  - refine (proj2 (proj2 (proj2 (@ReportHandler_extracts_data plainReader))
                     reportEmptyData _ _ _ "" document_reportEmptyData eq_refl _)).
    intros n a cs cl [E|[]] _. now injection E as _ _ <- _.
  - refine (proj2 (proj2 (proj2 (@ReportHandler_extracts_data plainReader))
                     reportNoData _ _ _ "" document_reportNoData eq_refl _)).
    intros n a cs cl [].
Defined.

(** C8. [RegisterHandler] puts the handler at the end of the registry: the
    registry grows by one, every earlier entry keeps its index, the new
    entry is the last, and registering the same handler twice gives two
    entries. *)
Theorem RegisterHandler_appends :
  forall (World : Type) (p : XMLProcessor World) (h : option (Handler World)),
  handlers (RegisterHandler p h) = handlers p ++ [h]
  /\ length (handlers (RegisterHandler p h)) = S (length (handlers p))
  /\ (forall i, i < length (handlers p) ->
        nth_error (handlers (RegisterHandler p h)) i = nth_error (handlers p) i)
  /\ nth_error (handlers (RegisterHandler p h)) (length (handlers p)) = Some h
  /\ handlers (RegisterHandler (RegisterHandler p h) h) = handlers p ++ [h; h].
Proof.
  intros World p h. cbn [RegisterHandler handlers]. repeat split.
  - rewrite length_app. cbn. lia.
  - intros i Hi. now apply nth_error_app1.
  - rewrite nth_error_app2 by apply Nat.le_refl. now rewrite Nat.sub_diag.
  - now rewrite <- app_assoc.
Qed.

(** Registering the failing handler on a processor that holds it already:
    the entry at index 0 stays. *)
Lemma RegisterHandler_appends_witness :
  nth_error (handlers (RegisterHandler (registerAll [failingHandler]) (Some failingHandler))) 0
  = Some (Some failingHandler).
Proof.
  refine (eq_trans (proj1 (proj2 (proj2 (RegisterHandler_appends Stdout
                      (registerAll [failingHandler]) (Some failingHandler)))) 0 _) eq_refl).
  cbn. lia.
Defined.

(** C9. [Handle] of the example handlers does not look at the recognition
    key: on every payload that holds a complete element, whatever its name
    and attributes, [Handle] of the invoice handler and of the report
    handler succeed and print the text of the child they decode, which is
    the empty string when there is no such child; so they succeed on
    payloads for which [CanHandle] of the same handler returns false. *)
Theorem Handle_ignores_recognition_key : forall `{reader : xml.TokenReader},
  (forall (xmlData : list byte) (out : Stdout),
     wellFormed xmlData ->
     snd (Handle InvoiceHandler xmlData out) = nil /\
     snd (Handle ReportHandler xmlData out) = nil)
  /\ (forall (xmlData : list byte) name attr children (out : Stdout),
        document (fst (xml.tokens xmlData)) name attr children ->
        Handle InvoiceHandler xmlData out =
          (fmt.Println "Processing invoice amount:" (childText "amount" children) out, nil)
        /\ Handle ReportHandler xmlData out =
          (fmt.Println "Processing report:" (childText "data" children) out, nil)
        /\ ((forall c, In c children -> isChild "amount" c = false) ->
            childText "amount" children = "")
        /\ ((forall c, In c children -> isChild "data" c = false) ->
            childText "data" children = ""))
  /\ (forall out : Stdout,
        CanHandle InvoiceHandler invoiceOther = false /\
        Handle InvoiceHandler invoiceOther out =
          (fmt.Println "Processing invoice amount:" "" out, nil) /\
        CanHandle ReportHandler invoiceOther = false /\
        Handle ReportHandler invoiceOther out = (fmt.Println "Processing report:" "" out, nil)).
Proof.
  intro reader. split; [|split].
  - intros xmlData out [name [attr [children Hdoc]]]. cbn [Handle InvoiceHandler ReportHandler].
    rewrite (InvoiceHandler_Handle_document _ _ _ _ out Hdoc).
    now rewrite (ReportHandler_Handle_document _ _ _ _ out Hdoc).
  - intros xmlData name attr children out Hdoc. cbn [Handle InvoiceHandler ReportHandler].
    split; [|split; [|split]].
    + exact (InvoiceHandler_Handle_document _ _ _ _ out Hdoc).
    + exact (ReportHandler_Handle_document _ _ _ _ out Hdoc).
    + apply childText_absent.
    + apply childText_absent.
  - intro out. cbn [CanHandle Handle InvoiceHandler ReportHandler].
    split; [|split; [|split]].
    + exact InvoiceHandler_CanHandle_invoiceOther.
    + now rewrite (InvoiceHandler_Handle_document _ _ _ _ out document_invoiceOther).
    + exact ReportHandler_CanHandle_invoiceOther.
    + now rewrite (ReportHandler_Handle_document _ _ _ _ out document_invoiceOther).
Qed.

(** The invoice handler processes the report without complaint. *)
Lemma Handle_ignores_recognition_key_witness :
  snd (Handle (@InvoiceHandler plainReader) reportNoData "") = nil /\
  snd (Handle (@ReportHandler plainReader) reportNoData "") = nil.
Proof.
  refine (proj1 (@Handle_ignores_recognition_key plainReader) reportNoData "" _).
  exists {| xml.Space := ""; xml.Local := "report" |}, [], [].
  exact document_reportNoData.
Defined.

(** C10. [RegisterHandler] stores a nil [Handler] like any other value, and
    [ProcessXML] panics with a nil dereference when the loop reaches a nil
    entry, whatever the payload: that is, whenever every entry before it
    is a handler that declines the payload. *)
Theorem nil_handler_panics : forall (World : Type) (p : XMLProcessor World),
  handlers (RegisterHandler p None) = handlers p ++ [None]
  /\ (forall pre post (xmlData : list byte) (w : World),
        handlers p = pre ++ None :: post ->
        Forall (declines xmlData) pre ->
        ProcessXML p xmlData w =
        {| calls := map CanHandleCall (seq 0 (length pre)); world := w;
           result := Panics nilDereference |})
  /\ (forall (xmlData : list byte) (w : World),
        result (ProcessXML (RegisterHandler NewXMLProcessor None) xmlData w)
        = Panics nilDereference).
Proof.
  intros World p. split; [reflexivity|split].
  - intros pre post xmlData w Hp Hpre. unfold ProcessXML. rewrite Hp.
    rewrite rangeHandlers_declined by exact Hpre. cbn. now rewrite app_nil_r.
  - reflexivity.
Qed.

(** A nil entry behind the report handler: the unknown payload reaches it. *)
Lemma nil_handler_panics_witness :
  ProcessXML (RegisterHandler (registerAll [@ReportHandler plainReader]) None) unknown ""
  = {| calls := [CanHandleCall 0]; world := ""; result := Panics nilDereference |}.
Proof.
  refine (proj1 (proj2 (nil_handler_panics Stdout
                   (RegisterHandler (registerAll [@ReportHandler plainReader]) None)))
            [Some (@ReportHandler plainReader)] [] unknown "" eq_refl _).
  constructor; [|constructor]. eexists. split; [reflexivity | vm_compute; reflexivity].
Defined.

(** C4. When exactly one registered handler recognises the payload, the
    state left behind and the result of [ProcessXML] are the same for every
    order of registration of the same handlers; two orders can only
    give different outcomes when at least two handlers recognise the
    payload, and then the one registered first wins. *)
Theorem ProcessXML_order_independent : forall (World : Type),
  (forall (l l' : list (Handler World)) (xmlData : list byte) (w : World),
     Permutation l l' ->
     length (filter (fun h => CanHandle h xmlData) l) = 1 ->
     observed (ProcessXML (registerAll l) xmlData w) =
     observed (ProcessXML (registerAll l') xmlData w))
  /\ (forall (l l' : list (Handler World)) (xmlData : list byte) (w : World),
        Permutation l l' ->
        observed (ProcessXML (registerAll l) xmlData w) <>
        observed (ProcessXML (registerAll l') xmlData w) ->
        2 <= length (filter (fun h => CanHandle h xmlData) l))
  /\ (forall (h1 h2 : Handler World) (xmlData : list byte) (w : World),
        CanHandle h1 xmlData = true ->
        CanHandle h2 xmlData = true ->
        observed (ProcessXML (registerAll [h1; h2]) xmlData w) = observed
          {| calls := []; world := fst (Handle h1 xmlData w);
             result := Returns (snd (Handle h1 xmlData w)) |} /\
        observed (ProcessXML (registerAll [h2; h1]) xmlData w) = observed
          {| calls := []; world := fst (Handle h2 xmlData w);
             result := Returns (snd (Handle h2 xmlData w)) |}).
Proof.
  intro World. split; [|split].
  - intros l l' xmlData w HP H1. apply observed_permutation; [exact HP | lia].
  - intros l l' xmlData w HP Hdiff.
    destruct (le_lt_dec 2 (length (filter (fun h => CanHandle h xmlData) l))) as [|Hlt];
      [assumption|].
    exfalso. apply Hdiff. apply observed_permutation; [exact HP | lia].
  - intros h1 h2 xmlData w H1 H2. unfold ProcessXML.
    rewrite !handlers_registerAll, !observed_first_match. cbn [filter].
    now rewrite H1, H2.
Qed.

(** The report payload goes to the report handler whether it is registered
    before or after the invoice handler. *)
Lemma ProcessXML_order_independent_witness :
  observed (ProcessXML (registerAll [@InvoiceHandler plainReader; @ReportHandler plainReader])
              reportHello "")
  = observed (ProcessXML (registerAll [@ReportHandler plainReader; @InvoiceHandler plainReader])
                reportHello "").
Proof.
  refine (proj1 (ProcessXML_order_independent Stdout)
            [@InvoiceHandler plainReader; @ReportHandler plainReader]
            [@ReportHandler plainReader; @InvoiceHandler plainReader]
            reportHello "" (perm_swap _ _ []) _).
  vm_compute. reflexivity.
Defined.

(** * Further properties of the dispatcher *)

Section DispatchCases.

Context {World : Type}.
Implicit Types (hs pre post : list (option (Handler World))) (h : Handler World).
Implicit Types (p : XMLProcessor World) (xmlData : list byte) (w : World).

(** The loop stops at the first entry that does not decline: a handler that
    accepts, or a nil entry; or there is no such entry. *)
Lemma registry_cases : forall hs xmlData,
  Forall (declines xmlData) hs \/
  (exists pre h post,
     hs = pre ++ Some h :: post /\ Forall (declines xmlData) pre /\ CanHandle h xmlData = true) \/
  (exists pre post, hs = pre ++ None :: post /\ Forall (declines xmlData) pre).
Proof.
  induction hs as [|[h|] hs IH]; intro xmlData.
  - left. constructor.
  - destruct (CanHandle h xmlData) eqn:E.
    + right. left. exists [], h, hs. repeat split; [constructor | exact E].
    + assert (Hd : declines xmlData (Some h)) by (exists h; now split).
      destruct (IH xmlData) as [H|[(pre & h' & post & -> & Hp & Hy)|(pre & post & -> & Hp)]].
      * left. now constructor.
      * right. left. exists (Some h :: pre), h', post. repeat split; [now constructor | exact Hy].
      * right. right. exists (Some h :: pre), post. split; [reflexivity | now constructor].
  - right. right. exists [], hs. split; [reflexivity | constructor].
Qed.

Lemma ProcessXML_all_decline : forall p xmlData w,
  Forall (declines xmlData) (handlers p) ->
  ProcessXML p xmlData w =
  {| calls := map CanHandleCall (seq 0 (length (handlers p))); world := w;
     result := Returns noHandlerFound |}.
Proof.
  intros p xmlData w Hall. unfold ProcessXML.
  pose proof (rangeHandlers_declined (handlers p) [] 0 xmlData w Hall) as H.
  rewrite app_nil_r in H. rewrite H. cbn. now rewrite app_nil_r.
Qed.

Lemma ProcessXML_accepted : forall p pre h post xmlData w,
  handlers p = pre ++ Some h :: post ->
  Forall (declines xmlData) pre ->
  CanHandle h xmlData = true ->
  ProcessXML p xmlData w =
  {| calls := map CanHandleCall (seq 0 (S (length pre))) ++ [HandleCall (length pre)];
     world := fst (Handle h xmlData w);
     result := Returns (snd (Handle h xmlData w)) |}.
Proof.
  intros p pre h post xmlData w Hp Hpre Hyes. unfold ProcessXML. rewrite Hp.
  rewrite rangeHandlers_declined by exact Hpre.
  rewrite rangeHandlers_match by exact Hyes. cbn [calls world result].
  rewrite seq_S, map_app, <- app_assoc. reflexivity.
Qed.

Lemma ProcessXML_nil_reached : forall p pre post xmlData w,
  handlers p = pre ++ None :: post ->
  Forall (declines xmlData) pre ->
  ProcessXML p xmlData w =
  {| calls := map CanHandleCall (seq 0 (length pre)); world := w;
     result := Panics nilDereference |}.
Proof.
  intros p pre post xmlData w Hp Hpre. unfold ProcessXML. rewrite Hp.
  rewrite rangeHandlers_declined by exact Hpre. cbn. now rewrite app_nil_r.
Qed.

Lemma not_In_HandleCall : forall i l, ~ In (HandleCall i) (map CanHandleCall l).
Proof.
  intros i l H. apply in_map_iff in H as [j [Hj _]]. discriminate.
Qed.

Lemma filter_isHandleCall_CanHandle : forall l,
  filter isHandleCall (map CanHandleCall l) = [].
Proof.
  induction l as [|j l IH]; [reflexivity | exact IH].
Qed.

Lemma declines_not_nil : forall xmlData pre,
  Forall (declines xmlData) pre -> Forall (fun e => e <> None) pre.
Proof.
  intros xmlData pre H. induction H as [|e pre [h [-> _]] _ IH]; constructor;
    [discriminate | exact IH].
Qed.

Lemma handlers_fold_RegisterHandler : forall (extra : list (option (Handler World))) p,
  handlers (fold_left RegisterHandler extra p) = handlers p ++ extra.
Proof.
  induction extra as [|e extra IH]; intro p; cbn [fold_left].
  - now rewrite app_nil_r.
  - rewrite IH. cbn [RegisterHandler handlers]. now rewrite <- app_assoc.
Qed.

End DispatchCases.

Section GeneralDispatchFacts.

Context {World : Type}.
Implicit Types (hs pre post : list (option (AnyHandler World))) (xmlData : list byte) (w : World).





End GeneralDispatchFacts.



(** X2. [Handle] is called only on a handler whose [CanHandle] has just
    returned true, and only when every entry before it is a handler whose
    [CanHandle] returned false. *)
Theorem Handle_called_only_after_accept :
  forall (World : Type) (p : XMLProcessor World) (xmlData : list byte) (w : World) (i : nat),
  In (HandleCall i) (calls (ProcessXML p xmlData w)) ->
  (exists h, nth_error (handlers p) i = Some (Some h) /\ CanHandle h xmlData = true)
  /\ (forall j, j < i ->
        exists h', nth_error (handlers p) j = Some (Some h') /\ CanHandle h' xmlData = false).
Proof.
  intros World p xmlData w i Hin.
  destruct (registry_cases (handlers p) xmlData)
    as [Hall|[(pre & h & post & Hp & Hpre & Hyes)|(pre & post & Hp & Hpre)]].
  - rewrite (ProcessXML_all_decline _ _ _ Hall) in Hin. now apply not_In_HandleCall in Hin.
  - rewrite (ProcessXML_accepted _ _ _ _ _ _ Hp Hpre Hyes) in Hin. cbn [calls] in Hin.
    apply in_app_or in Hin as [Hin|[Hin|[]]]; [now apply not_In_HandleCall in Hin|].
    injection Hin as <-. rewrite Hp. split.
    + exists h. split; [|exact Hyes].
      rewrite nth_error_app2 by apply Nat.le_refl. now rewrite Nat.sub_diag.
    + intros j Hj. rewrite nth_error_app1 by exact Hj.
      destruct (nth_error pre j) as [e|] eqn:E.
      * apply nth_error_In in E. rewrite Forall_forall in Hpre.
        destruct (Hpre e E) as [h' [-> Hno]]. now exists h'.
      * apply nth_error_None in E. lia.
  - rewrite (ProcessXML_nil_reached _ _ _ _ _ Hp Hpre) in Hin. now apply not_In_HandleCall in Hin.
Qed.

(** The report handler is asked second and handles the report. *)
Lemma Handle_called_only_after_accept_witness :
  (exists h, nth_error [Some (@InvoiceHandler plainReader); Some (@ReportHandler plainReader)] 1
             = Some (Some h) /\ CanHandle h reportHello = true)
  /\ (forall j, j < 1 ->
        exists h', nth_error [Some (@InvoiceHandler plainReader); Some (@ReportHandler plainReader)] j
                   = Some (Some h') /\ CanHandle h' reportHello = false).
Proof.
  refine (Handle_called_only_after_accept Stdout
            (registerAll [@InvoiceHandler plainReader; @ReportHandler plainReader])
            reportHello "" 1 _).
  vm_compute. right. right. left. reflexivity.
Defined.

(** X3. The dispatcher changes nothing by itself: when a dispatch makes no
    [Handle] call (no handler accepts, or a nil entry is reached), the
    state after it is the state before it. *)
Theorem ProcessXML_state_unchanged_without_Handle :
  forall (World : Type) (p : XMLProcessor World) (xmlData : list byte) (w : World),
  filter isHandleCall (calls (ProcessXML p xmlData w)) = [] ->
  world (ProcessXML p xmlData w) = w.
Proof.
  intros World p xmlData w Hnone.
  destruct (registry_cases (handlers p) xmlData)
    as [Hall|[(pre & h & post & Hp & Hpre & Hyes)|(pre & post & Hp & Hpre)]].
  - now rewrite (ProcessXML_all_decline _ _ _ Hall).
  - rewrite (ProcessXML_accepted _ _ _ _ _ _ Hp Hpre Hyes) in Hnone. cbn [calls] in Hnone.
    rewrite filter_app, filter_isHandleCall_CanHandle in Hnone. discriminate.
  - now rewrite (ProcessXML_nil_reached _ _ _ _ _ Hp Hpre).
Qed.

(** The invoice handler declines the report: nothing is printed. *)
Lemma ProcessXML_state_unchanged_without_Handle_witness :
  world (ProcessXML (registerAll [@InvoiceHandler plainReader]) reportHello "printed before")
  = "printed before".
Proof.
  refine (ProcessXML_state_unchanged_without_Handle Stdout
            (registerAll [@InvoiceHandler plainReader]) reportHello "printed before" _).
  vm_compute. reflexivity.
Defined.

(** X4. Once some entry does not decline a payload, handlers registered
    later play no part for that payload: the dispatch, calls included, is
    the same however many entries are registered afterwards.  While every
    entry declines, registering one more entry makes the processor answer
    as a processor that holds that entry alone. *)
Theorem ProcessXML_later_registrations :
  forall (World : Type) (p : XMLProcessor World) (xmlData : list byte) (w : World),
  (~ Forall (declines xmlData) (handlers p) ->
   forall extra : list (option (Handler World)),
     ProcessXML (fold_left RegisterHandler extra p) xmlData w = ProcessXML p xmlData w)
  /\ (Forall (declines xmlData) (handlers p) ->
      forall e : option (Handler World),
        observed (ProcessXML (RegisterHandler p e) xmlData w) =
        observed (ProcessXML (RegisterHandler NewXMLProcessor e) xmlData w)).
Proof.
  intros World p xmlData w. split.
  - intros Hsome extra.
    destruct (registry_cases (handlers p) xmlData)
      as [Hall|[(pre & h & post & Hp & Hpre & Hyes)|(pre & post & Hp & Hpre)]].
    + contradiction.
    + rewrite (ProcessXML_accepted _ _ _ _ _ _ Hp Hpre Hyes).
      apply (ProcessXML_accepted _ pre h (post ++ extra)); [|exact Hpre|exact Hyes].
      rewrite handlers_fold_RegisterHandler, Hp, <- app_assoc. reflexivity.
    + rewrite (ProcessXML_nil_reached _ _ _ _ _ Hp Hpre).
      apply (ProcessXML_nil_reached _ pre (post ++ extra)); [|exact Hpre].
      rewrite handlers_fold_RegisterHandler, Hp, <- app_assoc. reflexivity.
  - intros Hall e. unfold ProcessXML. cbn [RegisterHandler NewXMLProcessor handlers app].
    rewrite rangeHandlers_declined by exact Hall. cbn [observed world result].
    destruct e as [h|]; cbn [rangeHandlers]; [|reflexivity].
    destruct (CanHandle h xmlData); [|reflexivity].
    now destruct (Handle h xmlData w).
Qed.

(** The report handler takes the report whatever is registered behind it;
    behind the invoice handler, which declines it, the report handler
    answers as if alone. *)
Lemma ProcessXML_later_registrations_witness :
  ProcessXML (fold_left RegisterHandler [Some failingHandler; None]
                (registerAll [@ReportHandler plainReader])) reportHello ""
  = ProcessXML (registerAll [@ReportHandler plainReader]) reportHello ""
  /\ observed (ProcessXML (RegisterHandler (registerAll [@InvoiceHandler plainReader])
                             (Some (@ReportHandler plainReader))) reportHello "")
     = observed (ProcessXML (RegisterHandler NewXMLProcessor (Some (@ReportHandler plainReader)))
                   reportHello "").
Proof.
  split.
  - refine (proj1 (ProcessXML_later_registrations Stdout
                     (registerAll [@ReportHandler plainReader]) reportHello "") _ _).
    intro H. inversion H as [|e l [h [E Hno]] _]. injection E as <-.
    vm_compute in Hno. discriminate.
  - refine (proj2 (ProcessXML_later_registrations Stdout
                     (registerAll [@InvoiceHandler plainReader]) reportHello "") _ _).
    constructor; [|constructor]. eexists. split; [reflexivity | vm_compute; reflexivity].
Defined.

(** X5. A dispatch asks the entries one after the other from index 0, each
    at most once and never more of them than are registered; if it calls
    [Handle] at all, that is its last call, on the entry it asked last. *)
Theorem ProcessXML_trace_shape :
  forall (World : Type) (p : XMLProcessor World) (xmlData : list byte) (w : World),
  exists k, k <= length (handlers p) /\
    (calls (ProcessXML p xmlData w) = map CanHandleCall (seq 0 k) \/
     exists m, k = S m /\
       calls (ProcessXML p xmlData w) = map CanHandleCall (seq 0 k) ++ [HandleCall m]).
Proof.
  intros World p xmlData w.
  destruct (registry_cases (handlers p) xmlData)
    as [Hall|[(pre & h & post & Hp & Hpre & Hyes)|(pre & post & Hp & Hpre)]].
  - exists (length (handlers p)). split; [apply Nat.le_refl|]. left.
    now rewrite (ProcessXML_all_decline _ _ _ Hall).
  - exists (S (length pre)). split.
    + rewrite Hp, length_app. cbn. lia.
    + right. exists (length pre). split; [reflexivity|].
      now rewrite (ProcessXML_accepted _ _ _ _ _ _ Hp Hpre Hyes).
  - exists (length pre). split.
    + rewrite Hp, length_app. lia.
    + left. now rewrite (ProcessXML_nil_reached _ _ _ _ _ Hp Hpre).
Qed.

(** X6. Calls of [RegisterHandler] one after the other leave the entries in
    the order of the calls, behind those that were there; on a new
    processor the registry is the list of the registered values, nil
    values included. *)
Theorem RegisterHandler_sequence :
  forall (World : Type) (p : XMLProcessor World) (entries : list (option (Handler World))),
  handlers (fold_left RegisterHandler entries p) = handlers p ++ entries
  /\ handlers (fold_left RegisterHandler entries NewXMLProcessor) = entries
  /\ (forall i, nth_error (handlers (fold_left RegisterHandler entries p))
                  (length (handlers p) + i) = nth_error entries i).
Proof.
  intros World p entries. split; [|split].
  - apply handlers_fold_RegisterHandler.
  - now rewrite handlers_fold_RegisterHandler.
  - intro i. rewrite handlers_fold_RegisterHandler, nth_error_app2 by lia.
    f_equal. lia.
Qed.

(** * Further properties of the handlers *)

Lemma document_unique : forall toks name attr children name' attr' children',
  document toks name attr children ->
  document toks name' attr' children' ->
  name = name' /\ attr = attr'.
Proof.
  intros toks name attr children name' attr' children'
    [prolog close rest Hp ->] [prolog' close' rest' Hp' E].
  rewrite !flatten_Element in E.
  pose proof (findStart_prolog prolog name attr
                (flattenAll children ++ xml.EndElement close :: rest) Hp) as H.
  rewrite E, (findStart_prolog _ _ _ _ Hp') in H. now injection H as -> ->.
Qed.

(** Decoding into a struct without [XMLName] field fails only with the
    error of the token reader. *)
Lemma Decode_error_reader : forall terr (T : Type) (tinfo : xml.typeInfo T) toks v e,
  xml.xmlname tinfo = None ->
  snd (xml.Decode terr tinfo toks v) = Some e ->
  e = xml.readError_error terr.
Proof.
  intros terr T tinfo toks v e Hname H. unfold xml.Decode in H.
  destruct (xml.findStart toks) as [[[name attr] rest]|]; [|now injection H as <-].
  unfold xml.unmarshal_Struct, xml.assignName in H. rewrite Hname in H.
  destruct (xml.unmarshal_children terr tinfo (S (length rest)) rest
              (fold_left (xml.assignAttr tinfo) attr v)) as [v2 [e'|rest']] eqn:EC;
    [|discriminate].
  injection H as <-. now apply unmarshal_children_error in EC.
Qed.

(** A struct with a tagged [XMLName] field and no other field. *)
Lemma fill_XMLName_only : forall (T : Type) (tag : string) (set : T -> xml.Name -> T)
  v name attr children,
  tag <> "" ->
  fill {| xml.xmlname := Some (tag, set); xml.fields := [] |} v name attr children =
  if (tag =? xml.Local name)%string
  then (set v name, nil)
  else (v, Some (UnmarshalError ("expected element type <" ++ tag ++ "> but have <"
                                 ++ xml.Local name ++ ">")%string)).
Proof.
  intros T tag set v name attr children Htag. unfold fill, xml.assignName.
  cbn [xml.xmlname]. apply String.eqb_neq in Htag. rewrite Htag. cbn [negb andb].
  destruct (tag =? xml.Local name)%string; cbn [negb]; [|reflexivity].
  rewrite fillChildren_no_element by reflexivity.
  f_equal. induction attr as [|a attr IH]; [reflexivity | exact IH].
Qed.

Lemma lastChildText_absent : forall local children s,
  (forall c, In c children -> isChild local c = false) ->
  lastChildText local s children = s.
Proof.
  intros local children. unfold lastChildText.
  induction children as [|c children IH]; intros s H; [reflexivity|].
  cbn [fold_left]. specialize (IH s (fun c' Hc => H c' (or_intror Hc))).
  specialize (H c (or_introl eq_refl)).
  destruct c; try exact IH. cbn [isChild] in H. now rewrite H.
Qed.

Lemma childText_last : forall local before n a body cl after,
  xml.Local n = local ->
  (forall c, In c after -> isChild local c = false) ->
  childText local (before ++ Element n a body cl :: after) = text body.
Proof.
  intros local before n a body cl after Hn Hafter. unfold childText.
  rewrite fold_left_app. cbn [fold_left]. rewrite Hn, String.eqb_refl.
  exact (lastChildText_absent local after (text body) Hafter).
Qed.

Section MoreHandlerFacts.

Context `{reader : xml.TokenReader}.

Lemma not_wellFormed_error : forall (T : Type) (tinfo : xml.typeInfo T) xmlData v,
  xml.xmlname tinfo = None ->
  ~ wellFormed xmlData ->
  snd (xml.Unmarshal xmlData tinfo v) = Some (xml.readError_error (snd (xml.tokens xmlData))).
Proof.
  intros T tinfo xmlData v Hname Hnot.
  destruct (snd (xml.Unmarshal xmlData tinfo v)) as [e|] eqn:E.
  - unfold xml.Unmarshal in E. now rewrite (Decode_error_reader _ _ _ _ _ _ Hname E).
  - exfalso. apply Hnot. now apply (Unmarshal_nil_wellFormed T tinfo xmlData v).
Qed.

Lemma TestCodeChangesHandler_CanHandle_iff : forall xmlData,
  TestCodeChangesHandler.CanHandle xmlData = true <->
  exists name attr children,
    document (fst (xml.tokens xmlData)) name attr children /\ xml.Local name = "code_changes".
Proof.
  intro xmlData. unfold TestCodeChangesHandler.CanHandle. split.
  - intro H.
    destruct (xml.Unmarshal xmlData TestCodeChangesHandler.Root_typeInfo
                TestCodeChangesHandler.Root_zero) as [root err] eqn:EU.
    destruct err as [e|]; [discriminate|].
    assert (Hwf : wellFormed xmlData).
    { apply (Unmarshal_nil_wellFormed _ TestCodeChangesHandler.Root_typeInfo _
               TestCodeChangesHandler.Root_zero). now rewrite EU. }
    destruct Hwf as [name [attr [children Hdoc]]].
    exists name, attr, children. split; [exact Hdoc|].
    rewrite (Unmarshal_document _ _ _ _ _ _ _ Hdoc) in EU.
    unfold TestCodeChangesHandler.Root_typeInfo in EU.
    rewrite fill_XMLName_only in EU by discriminate.
    destruct (String.eqb_spec "code_changes" (xml.Local name)); [congruence | discriminate].
  - intros [name [attr [children [Hdoc Hname]]]].
    rewrite (Unmarshal_document _ _ _ _ _ _ _ Hdoc).
    unfold TestCodeChangesHandler.Root_typeInfo.
    rewrite fill_XMLName_only by discriminate. rewrite Hname. cbn. now rewrite Hname.
Qed.

Lemma TestCodeChangesHandler_Handle_document : forall xmlData name attr children t,
  document (fst (xml.tokens xmlData)) name attr children ->
  TestCodeChangesHandler.Handle xmlData t =
  ({| TestCodeChangesHandler.parsedBranchName := childText "branch_name" children |}, nil).
Proof.
  intros xmlData name attr children t Hdoc. unfold TestCodeChangesHandler.Handle.
  rewrite (Unmarshal_document _ _ _ _ _ _ _ Hdoc).
  change TestCodeChangesHandler.CodeChanges_typeInfo
    with (elementField "branch_name" (fun s => {| TestCodeChangesHandler.BranchName := s |})).
  change TestCodeChangesHandler.CodeChanges_zero
    with ((fun s => {| TestCodeChangesHandler.BranchName := s |}) "").
  now rewrite fill_elementField.
Qed.

Lemma OrderHandler_CanHandle_iff : forall xmlData,
  OrderHandler.CanHandle xmlData = true <->
  exists name attr children,
    document (fst (xml.tokens xmlData)) name attr children /\ xml.Local name = "order".
Proof.
  intro xmlData. unfold OrderHandler.CanHandle. split.
  - intro H.
    destruct (xml.Unmarshal xmlData OrderHandler.Root_typeInfo OrderHandler.Root_zero)
      as [root err] eqn:EU.
    destruct err as [e|]; [discriminate|].
    assert (Hwf : wellFormed xmlData).
    { apply (Unmarshal_nil_wellFormed _ OrderHandler.Root_typeInfo _ OrderHandler.Root_zero).
      now rewrite EU. }
    destruct Hwf as [name [attr [children Hdoc]]].
    exists name, attr, children. split; [exact Hdoc|].
    rewrite (Unmarshal_document _ _ _ _ _ _ _ Hdoc) in EU.
    unfold OrderHandler.Root_typeInfo in EU.
    rewrite fill_XMLName_only in EU by discriminate.
    destruct (String.eqb_spec "order" (xml.Local name)); [congruence | discriminate].
  - intros [name [attr [children [Hdoc Hname]]]].
    rewrite (Unmarshal_document _ _ _ _ _ _ _ Hdoc).
    unfold OrderHandler.Root_typeInfo.
    rewrite fill_XMLName_only by discriminate. rewrite Hname. cbn. now rewrite Hname.
Qed.

Lemma OrderHandler_Handle_document : forall xmlData name attr children out,
  document (fst (xml.tokens xmlData)) name attr children ->
  OrderHandler.Handle xmlData out =
  (fmt.Println "Processing order ID:" (childText "id" children) out, nil).
Proof.
  intros xmlData name attr children out Hdoc. unfold OrderHandler.Handle.
  rewrite (Unmarshal_document _ _ _ _ _ _ _ Hdoc).
  change OrderHandler.Order_typeInfo
    with (elementField "id" (fun s => {| OrderHandler.ID := s |})).
  change OrderHandler.Order_zero with ((fun s => {| OrderHandler.ID := s |}) "").
  now rewrite fill_elementField.
Qed.

(** The handlers recognise by the name of the one element that a payload
    holds, so two of them with different names never accept the same
    payload. *)
Lemma recognition_exclusive : forall xmlData,
  (CanHandle ReportHandler xmlData = true -> CanHandle InvoiceHandler xmlData = false
                                             /\ CanHandle OrderHandler xmlData = false)
  /\ (CanHandle InvoiceHandler xmlData = true -> CanHandle OrderHandler xmlData = false).
Proof.
  intro xmlData. cbn [CanHandle ReportHandler InvoiceHandler OrderHandler].
  split; [intro HR; split | intro HI]; apply not_true_is_false; intro H2.
  - apply ReportHandler_CanHandle_iff in HR as (n & a & c & Hd & Hn).
    apply InvoiceHandler_CanHandle_iff in H2 as (n' & a' & c' & Hd' & Hn' & _).
    destruct (document_unique _ _ _ _ _ _ _ Hd Hd') as [-> _]. congruence.
  - apply ReportHandler_CanHandle_iff in HR as (n & a & c & Hd & Hn).
    apply OrderHandler_CanHandle_iff in H2 as (n' & a' & c' & Hd' & Hn').
    destruct (document_unique _ _ _ _ _ _ _ Hd Hd') as [-> _]. congruence.
  - apply InvoiceHandler_CanHandle_iff in HI as (n & a & c & Hd & Hn & _).
    apply OrderHandler_CanHandle_iff in H2 as (n' & a' & c' & Hd' & Hn').
    destruct (document_unique _ _ _ _ _ _ _ Hd Hd') as [-> _]. congruence.
Qed.

Lemma OrderHandler_recognised_is_handled : forall xmlData out,
  CanHandle OrderHandler xmlData = true -> snd (Handle OrderHandler xmlData out) = nil.
Proof.
  intros xmlData out Hyes. cbn [CanHandle Handle OrderHandler] in *.
  apply OrderHandler_CanHandle_iff in Hyes as [n [a [cs [Hdoc _]]]].
  now rewrite (OrderHandler_Handle_document _ _ _ _ out Hdoc).
Qed.

End MoreHandlerFacts.

Lemma document_codeChanges : forall `{reader : xml.TokenReader},
  document (fst (xml.tokens codeChanges))
    {| xml.Space := ""; xml.Local := "code_changes" |} []
    [Element {| xml.Space := ""; xml.Local := "branch_name" |} [] [Text "feature/update-docs"]
             {| xml.Space := ""; xml.Local := "branch_name" |}].
Proof.
  intro reader.
  apply (document_intro _ _ _ _ [] {| xml.Space := ""; xml.Local := "code_changes" |} []);
    [reflexivity|].
  erewrite xml.tokens_plain by (vm_compute; reflexivity). reflexivity.
Qed.

Lemma document_order12345 : forall `{reader : xml.TokenReader},
  document (fst (xml.tokens order12345))
    {| xml.Space := ""; xml.Local := "order" |} []
    [Element {| xml.Space := ""; xml.Local := "id" |} [] [Text "12345"]
             {| xml.Space := ""; xml.Local := "id" |}].
Proof.
  intro reader.
  apply (document_intro _ _ _ _ [] {| xml.Space := ""; xml.Local := "order" |} []);
    [reflexivity|].
  erewrite xml.tokens_plain by (vm_compute; reflexivity). reflexivity.
Qed.

Lemma document_reportTwice : forall `{reader : xml.TokenReader},
  document (fst (xml.tokens reportTwice))
    {| xml.Space := ""; xml.Local := "report" |} []
    ([Element {| xml.Space := ""; xml.Local := "data" |} []
        [Text "old";
         Element {| xml.Space := ""; xml.Local := "b" |} [] [Text "bold"]
                 {| xml.Space := ""; xml.Local := "b" |};
         Text "er"]
        {| xml.Space := ""; xml.Local := "data" |}]
     ++ Element {| xml.Space := ""; xml.Local := "data" |} [] [Text "new"]
                {| xml.Space := ""; xml.Local := "data" |} :: []).
Proof.
  intro reader.
  apply (document_intro _ _ _ _ [] {| xml.Space := ""; xml.Local := "report" |} []);
    [reflexivity|].
  erewrite xml.tokens_plain by (vm_compute; reflexivity). reflexivity.
Qed.

(** X7. [ReportHandler.CanHandle] returns true exactly when the payload
    holds a complete element whose local name is "report"; the attributes
    and the content of the element play no part. *)
Theorem ReportHandler_CanHandle_spec :
  forall `{reader : xml.TokenReader} (xmlData : list byte),
  CanHandle ReportHandler xmlData = true <->
  exists name attr children,
    document (fst (xml.tokens xmlData)) name attr children /\ xml.Local name = "report".
Proof.
  intros reader xmlData. exact (ReportHandler_CanHandle_iff xmlData).
Qed.

(** X8. [Handle] of the report handler and of the invoice handler succeed
    on exactly the same payloads, those that hold a complete element; on
    any other payload they return the error on which the token reader
    stopped (never an [UnmarshalError]) and print nothing. *)
Theorem Handle_fails_exactly_on_malformed :
  forall `{reader : xml.TokenReader} (xmlData : list byte) (out : Stdout),
  (snd (Handle ReportHandler xmlData out) = nil <-> wellFormed xmlData)
  /\ (snd (Handle InvoiceHandler xmlData out) = nil <-> wellFormed xmlData)
  /\ (~ wellFormed xmlData ->
      Handle ReportHandler xmlData out
        = (out, Some (xml.readError_error (snd (xml.tokens xmlData))))
      /\ Handle InvoiceHandler xmlData out
        = (out, Some (xml.readError_error (snd (xml.tokens xmlData))))).
Proof.
  intros reader xmlData out. cbn [Handle ReportHandler InvoiceHandler].
  assert (HR : ~ wellFormed xmlData ->
               ReportHandler.Handle xmlData out
               = (out, Some (xml.readError_error (snd (xml.tokens xmlData))))).
  { intro Hnot. unfold ReportHandler.Handle.
    pose proof (not_wellFormed_error _ ReportHandler.Report_typeInfo xmlData
                  ReportHandler.Report_zero eq_refl Hnot) as E.
    destruct (xml.Unmarshal xmlData ReportHandler.Report_typeInfo ReportHandler.Report_zero)
      as [v err]. cbn [snd] in E. now rewrite E. }
  assert (HI : ~ wellFormed xmlData ->
               InvoiceHandler.Handle xmlData out
               = (out, Some (xml.readError_error (snd (xml.tokens xmlData))))).
  { intro Hnot. unfold InvoiceHandler.Handle.
    pose proof (not_wellFormed_error _ InvoiceHandler.Invoice_typeInfo xmlData
                  InvoiceHandler.Invoice_zero eq_refl Hnot) as E.
    destruct (xml.Unmarshal xmlData InvoiceHandler.Invoice_typeInfo InvoiceHandler.Invoice_zero)
      as [v err]. cbn [snd] in E. now rewrite E. }
  split; [|split; [|now split; auto]].
  - split.
    + intro Hnil. unfold ReportHandler.Handle in Hnil.
      destruct (xml.Unmarshal xmlData ReportHandler.Report_typeInfo ReportHandler.Report_zero)
        as [v [e|]] eqn:EU; [discriminate|].
      apply (Unmarshal_nil_wellFormed _ ReportHandler.Report_typeInfo _ ReportHandler.Report_zero).
      now rewrite EU.
    + intros [n [a [cs Hdoc]]]. now rewrite (ReportHandler_Handle_document _ _ _ _ out Hdoc).
  - split.
    + intro Hnil. unfold InvoiceHandler.Handle in Hnil.
      destruct (xml.Unmarshal xmlData InvoiceHandler.Invoice_typeInfo InvoiceHandler.Invoice_zero)
        as [v [e|]] eqn:EU; [discriminate|].
      apply (Unmarshal_nil_wellFormed _ InvoiceHandler.Invoice_typeInfo _
               InvoiceHandler.Invoice_zero).
      now rewrite EU.
    + intros [n [a [cs Hdoc]]]. now rewrite (InvoiceHandler_Handle_document _ _ _ _ out Hdoc).
Qed.

(** The truncated report makes both handlers fail with the reader's syntax
    error. *)
Lemma Handle_fails_exactly_on_malformed_witness :
  Handle (@ReportHandler plainReader) truncated "" = ("", Some (SyntaxError "unexpected EOF" 1))
  /\ Handle (@InvoiceHandler plainReader) truncated ""
     = ("", Some (SyntaxError "unexpected EOF" 1)).
Proof.
  exact (proj2 (proj2 (@Handle_fails_exactly_on_malformed plainReader truncated ""))
           (@truncated_not_wellFormed plainReader)).
Defined.



(** X10. No payload is accepted by two of the report, invoice and order
    handlers, so the order in which the three are registered changes
    nothing for any payload: the state left behind and the result are the
    same for every order. *)
Theorem example_handlers_order_irrelevant :
  forall `{reader : xml.TokenReader} (l' : list (Handler Stdout)) (xmlData : list byte)
         (out : Stdout),
  Permutation [ReportHandler; InvoiceHandler; OrderHandler] l' ->
  length (filter (fun h => CanHandle h xmlData) [ReportHandler; InvoiceHandler; OrderHandler]) <= 1
  /\ observed (ProcessXML (registerAll [ReportHandler; InvoiceHandler; OrderHandler]) xmlData out)
     = observed (ProcessXML (registerAll l') xmlData out).
Proof.
  intros reader l' xmlData out HP.
  assert (Hle : length (filter (fun h => CanHandle h xmlData)
                          [ReportHandler; InvoiceHandler; OrderHandler]) <= 1).
  { destruct (recognition_exclusive xmlData) as [HR HI]. cbn [filter].
    destruct (CanHandle ReportHandler xmlData) eqn:ER.
    - destruct (HR eq_refl) as [E1 E2]. rewrite E1, E2. cbn. lia.
    - destruct (CanHandle InvoiceHandler xmlData) eqn:EI.
      + rewrite (HI eq_refl). cbn. lia.
      + destruct (CanHandle OrderHandler xmlData); cbn; lia. }
  split; [exact Hle | now apply observed_permutation].
Qed.

(** The order with the report handler last. *)
Lemma example_handlers_order_irrelevant_witness :
  observed (ProcessXML (registerAll [@ReportHandler plainReader; @InvoiceHandler plainReader;
                                     @OrderHandler plainReader]) reportHello "")
  = observed (ProcessXML (registerAll [@InvoiceHandler plainReader; @OrderHandler plainReader;
                                       @ReportHandler plainReader]) reportHello "").
Proof.
  refine (proj2 (@example_handlers_order_irrelevant plainReader
                   [@InvoiceHandler plainReader; @OrderHandler plainReader;
                    @ReportHandler plainReader] reportHello "" _)).
  apply Permutation_cons_append.
Defined.

(** X11. When a report has several data children, [Handle] prints the last
    one; of a data child it prints the character data directly inside it,
    not the text of elements nested in it. *)
Theorem ReportHandler_last_data_child :
  forall `{reader : xml.TokenReader} (xmlData : list byte) name attr before n a body cl after
         (out : Stdout),
  document (fst (xml.tokens xmlData)) name attr (before ++ Element n a body cl :: after) ->
  xml.Local n = "data" ->
  (forall c, In c after -> isChild "data" c = false) ->
  Handle ReportHandler xmlData out = (fmt.Println "Processing report:" (text body) out, nil).
Proof.
  intros reader xmlData name attr before n a body cl after out Hdoc Hn Hafter.
  cbn [Handle ReportHandler].
  rewrite (ReportHandler_Handle_document _ _ _ _ out Hdoc).
  now rewrite (childText_last "data" before n a body cl after Hn Hafter).
Qed.

(** Of <data>old<b>bold</b>er</data><data>new</data> the second child is
    printed. *)
Lemma ReportHandler_last_data_child_witness :
  Handle (@ReportHandler plainReader) reportTwice "" = (fmt.Println "Processing report:" "new" "", nil).
Proof.
  refine (@ReportHandler_last_data_child plainReader reportTwice _ _ _ _ _ _ _ [] ""
            (@document_reportTwice plainReader) eq_refl _).
  intros c [].
Defined.

(** X12. The test handler recognises exactly the payloads that hold a
    complete element called "code_changes".  Its [Handle] stores the text
    of the last branch_name child (the empty string when there is none) in
    [parsedBranchName], replacing what was stored, whatever the element is
    called; on a payload that holds no complete element it returns the
    reader's error and keeps what was stored. *)
Theorem TestCodeChangesHandler_spec : forall `{reader : xml.TokenReader},
  (forall xmlData : list byte,
     CanHandle TestCodeChangesHandler xmlData = true <->
     exists name attr children,
       document (fst (xml.tokens xmlData)) name attr children /\
       xml.Local name = "code_changes")
  /\ (forall (xmlData : list byte) name attr children (t : TestCodeChangesHandler.receiver),
        document (fst (xml.tokens xmlData)) name attr children ->
        Handle TestCodeChangesHandler xmlData t =
        ({| TestCodeChangesHandler.parsedBranchName := childText "branch_name" children |}, nil))
  /\ (forall (xmlData : list byte) (t : TestCodeChangesHandler.receiver),
        ~ wellFormed xmlData ->
        Handle TestCodeChangesHandler xmlData t =
        (t, Some (xml.readError_error (snd (xml.tokens xmlData))))).
Proof.
  intro reader. split; [|split].
  - exact TestCodeChangesHandler_CanHandle_iff.
  - intros xmlData name attr children t Hdoc.
    exact (TestCodeChangesHandler_Handle_document _ _ _ _ t Hdoc).
  - intros xmlData t Hnot. cbn [Handle TestCodeChangesHandler].
    unfold TestCodeChangesHandler.Handle.
    pose proof (not_wellFormed_error _ TestCodeChangesHandler.CodeChanges_typeInfo xmlData
                  TestCodeChangesHandler.CodeChanges_zero eq_refl Hnot) as E.
    destruct (xml.Unmarshal xmlData TestCodeChangesHandler.CodeChanges_typeInfo
                TestCodeChangesHandler.CodeChanges_zero) as [v err].
    cbn [snd] in E. now rewrite E.
Qed.

(** A branch name stored earlier survives the truncated payload and is
    replaced by the one of the test's payload. *)
Lemma TestCodeChangesHandler_spec_witness :
  Handle (@TestCodeChangesHandler plainReader) truncated
    {| TestCodeChangesHandler.parsedBranchName := "main" |}
  = ({| TestCodeChangesHandler.parsedBranchName := "main" |},
     Some (SyntaxError "unexpected EOF" 1))
  /\ Handle (@TestCodeChangesHandler plainReader) codeChanges
       {| TestCodeChangesHandler.parsedBranchName := "main" |}
     = ({| TestCodeChangesHandler.parsedBranchName := "feature/update-docs" |}, nil).
Proof.
  split.
  - exact (proj2 (proj2 (@TestCodeChangesHandler_spec plainReader)) truncated
             {| TestCodeChangesHandler.parsedBranchName := "main" |}
             (@truncated_not_wellFormed plainReader)).
  - exact (proj1 (proj2 (@TestCodeChangesHandler_spec plainReader)) codeChanges _ _ _
             {| TestCodeChangesHandler.parsedBranchName := "main" |}
             (@document_codeChanges plainReader)).
Defined.

(** X13. On a processor that holds only the test handler, as in
    [TestProcessXML], every payload that holds a complete code_changes
    element is dispatched to the handler: [ProcessXML] returns nil and the
    handler holds the text of the branch_name child afterwards; for the
    payload of the test that is "feature/update-docs". *)
Theorem TestProcessXML_dispatch : forall `{reader : xml.TokenReader},
  (forall (xmlData : list byte) name attr children (t : TestCodeChangesHandler.receiver),
     document (fst (xml.tokens xmlData)) name attr children ->
     xml.Local name = "code_changes" ->
     ProcessXML (RegisterHandler NewXMLProcessor (Some TestCodeChangesHandler)) xmlData t =
     {| calls := [CanHandleCall 0; HandleCall 0];
        world := {| TestCodeChangesHandler.parsedBranchName := childText "branch_name" children |};
        result := Returns nil |})
  /\ ProcessXML (RegisterHandler NewXMLProcessor (Some TestCodeChangesHandler)) codeChanges
       TestCodeChangesHandler.new =
     {| calls := [CanHandleCall 0; HandleCall 0];
        world := {| TestCodeChangesHandler.parsedBranchName := "feature/update-docs" |};
        result := Returns nil |}.
Proof.
  intro reader.
  assert (H : forall (xmlData : list byte) name attr children t,
            document (fst (xml.tokens xmlData)) name attr children ->
            xml.Local name = "code_changes" ->
            ProcessXML (RegisterHandler NewXMLProcessor (Some TestCodeChangesHandler)) xmlData t =
            {| calls := [CanHandleCall 0; HandleCall 0];
               world := {| TestCodeChangesHandler.parsedBranchName :=
                             childText "branch_name" children |};
               result := Returns nil |}).
  { intros xmlData name attr children t Hdoc Hname. unfold ProcessXML.
    cbn [RegisterHandler NewXMLProcessor handlers app].
    rewrite rangeHandlers_match.
    - cbn [Handle TestCodeChangesHandler].
      now rewrite (TestCodeChangesHandler_Handle_document _ _ _ _ t Hdoc).
    - apply TestCodeChangesHandler_CanHandle_iff. now exists name, attr, children. }
  split; [exact H|].
  exact (H codeChanges _ _ _ TestCodeChangesHandler.new document_codeChanges eq_refl).
Qed.

(** The payload of the test, with an earlier branch name stored. *)
Lemma TestProcessXML_dispatch_witness :
  ProcessXML (RegisterHandler NewXMLProcessor (Some (@TestCodeChangesHandler plainReader)))
    codeChanges {| TestCodeChangesHandler.parsedBranchName := "main" |}
  = {| calls := [CanHandleCall 0; HandleCall 0];
       world := {| TestCodeChangesHandler.parsedBranchName := "feature/update-docs" |};
       result := Returns nil |}.
Proof.
  exact (proj1 (@TestProcessXML_dispatch plainReader) codeChanges _ _ _
           {| TestCodeChangesHandler.parsedBranchName := "main" |}
           (@document_codeChanges plainReader) eq_refl).
Defined.

(** X14. The order handler of the guide recognises exactly the payloads
    that hold a complete element called "order"; its [Handle] prints the
    text of the last id child of whatever complete element the payload
    holds, and on any other payload returns the reader's error and prints
    nothing. *)
Theorem OrderHandler_spec : forall `{reader : xml.TokenReader},
  (forall xmlData : list byte,
     CanHandle OrderHandler xmlData = true <->
     exists name attr children,
       document (fst (xml.tokens xmlData)) name attr children /\ xml.Local name = "order")
  /\ (forall (xmlData : list byte) name attr children (out : Stdout),
        document (fst (xml.tokens xmlData)) name attr children ->
        Handle OrderHandler xmlData out =
        (fmt.Println "Processing order ID:" (childText "id" children) out, nil))
  /\ (forall (xmlData : list byte) (out : Stdout),
        ~ wellFormed xmlData ->
        Handle OrderHandler xmlData out =
        (out, Some (xml.readError_error (snd (xml.tokens xmlData))))).
Proof.
  intro reader. split; [|split].
  - exact OrderHandler_CanHandle_iff.
  - intros xmlData name attr children out Hdoc.
    exact (OrderHandler_Handle_document _ _ _ _ out Hdoc).
  - intros xmlData out Hnot. cbn [Handle OrderHandler]. unfold OrderHandler.Handle.
    pose proof (not_wellFormed_error _ OrderHandler.Order_typeInfo xmlData
                  OrderHandler.Order_zero eq_refl Hnot) as E.
    destruct (xml.Unmarshal xmlData OrderHandler.Order_typeInfo OrderHandler.Order_zero)
      as [v err]. cbn [snd] in E. now rewrite E.
Qed.

(** The order of the guide, and the truncated report. *)
Lemma OrderHandler_spec_witness :
  Handle (@OrderHandler plainReader) order12345 ""
  = (fmt.Println "Processing order ID:" "12345" "", nil)
  /\ Handle (@OrderHandler plainReader) truncated "" = ("", Some (SyntaxError "unexpected EOF" 1)).
Proof.
  split.
  - exact (proj1 (proj2 (@OrderHandler_spec plainReader)) order12345 _ _ _ ""
             (@document_order12345 plainReader)).
  - exact (proj2 (proj2 (@OrderHandler_spec plainReader)) truncated ""
             (@truncated_not_wellFormed plainReader)).
Defined.

(** X15. The processor that the guide's [main] builds (report handler, then
    order handler) routes every payload by the name of the element it
    holds: a report goes to the report handler, which is asked first; an
    order goes to the order handler after the report handler declined;
    every other payload, malformed or with another element, ends in "no
    handler found" with nothing printed.  The order of [main] prints
    "Processing order ID: 12345" and returns nil. *)
Theorem guideProcessor_routes : forall `{reader : xml.TokenReader} (xmlData : list byte)
  (out : Stdout),
  (forall name attr children,
     document (fst (xml.tokens xmlData)) name attr children ->
     xml.Local name = "report" ->
     ProcessXML guideProcessor xmlData out =
     {| calls := [CanHandleCall 0; HandleCall 0];
        world := fmt.Println "Processing report:" (childText "data" children) out;
        result := Returns nil |})
  /\ (forall name attr children,
        document (fst (xml.tokens xmlData)) name attr children ->
        xml.Local name = "order" ->
        ProcessXML guideProcessor xmlData out =
        {| calls := [CanHandleCall 0; CanHandleCall 1; HandleCall 1];
           world := fmt.Println "Processing order ID:" (childText "id" children) out;
           result := Returns nil |})
  /\ (~ wellFormed xmlData \/
      (exists name attr children,
         document (fst (xml.tokens xmlData)) name attr children /\
         xml.Local name <> "report" /\ xml.Local name <> "order") ->
      ProcessXML guideProcessor xmlData out =
      {| calls := [CanHandleCall 0; CanHandleCall 1]; world := out;
         result := Returns (Some (errorString "no handler found for the given XML")) |})
  /\ ProcessXML guideProcessor order12345 out =
     {| calls := [CanHandleCall 0; CanHandleCall 1; HandleCall 1];
        world := fmt.Println "Processing order ID:" "12345" out;
        result := Returns nil |}.
Proof.
  intros reader xmlData out.
  assert (Horder : forall (d : list byte) name attr children,
            document (fst (xml.tokens d)) name attr children ->
            xml.Local name = "order" ->
            ProcessXML guideProcessor d out =
            {| calls := [CanHandleCall 0; CanHandleCall 1; HandleCall 1];
               world := fmt.Println "Processing order ID:" (childText "id" children) out;
               result := Returns nil |}).
  { intros d name attr children Hdoc Hname.
    assert (HO : CanHandle OrderHandler d = true).
    { apply OrderHandler_CanHandle_iff. now exists name, attr, children. }
    assert (HR : CanHandle ReportHandler d = false).
    { apply not_true_is_false. intro HR.
      destruct (proj1 (recognition_exclusive d) HR) as [_ E]. congruence. }
    unfold ProcessXML, guideProcessor.
    cbn [RegisterHandler NewXMLProcessor handlers app rangeHandlers].
    rewrite HR, HO. cbn [Handle OrderHandler].
    now rewrite (OrderHandler_Handle_document _ _ _ _ out Hdoc). }
  split; [|split; [|split]].
  - intros name attr children Hdoc Hname.
    assert (HR : CanHandle ReportHandler xmlData = true).
    { apply ReportHandler_CanHandle_iff. now exists name, attr, children. }
    unfold ProcessXML, guideProcessor.
    cbn [RegisterHandler NewXMLProcessor handlers app rangeHandlers].
    rewrite HR. cbn [Handle ReportHandler].
    now rewrite (ReportHandler_Handle_document _ _ _ _ out Hdoc).
  - exact (Horder xmlData).
  - intro Hother.
    assert (HR : CanHandle ReportHandler xmlData = false).
    { apply not_true_is_false. intro HR.
      apply ReportHandler_CanHandle_iff in HR as (n & a & c & Hd & Hn).
      destruct Hother as [Hnot|(n' & a' & c' & Hd' & Hn1 & _)].
      - apply Hnot. now exists n, a, c.
      - destruct (document_unique _ _ _ _ _ _ _ Hd Hd') as [-> _]. contradiction. }
    assert (HO : CanHandle OrderHandler xmlData = false).
    { apply not_true_is_false. intro HO.
      apply OrderHandler_CanHandle_iff in HO as (n & a & c & Hd & Hn).
      destruct Hother as [Hnot|(n' & a' & c' & Hd' & _ & Hn2)].
      - apply Hnot. now exists n, a, c.
      - destruct (document_unique _ _ _ _ _ _ _ Hd Hd') as [-> _]. contradiction. }
    unfold ProcessXML, guideProcessor.
    cbn [RegisterHandler NewXMLProcessor handlers app rangeHandlers].
    now rewrite HR, HO.
  - exact (Horder order12345 _ _ _ document_order12345 eq_refl).
Qed.

(** The three routes on the report, on the order and on the invoice. *)
Lemma guideProcessor_routes_witness :
  ProcessXML (@guideProcessor plainReader) reportHello ""
  = {| calls := [CanHandleCall 0; HandleCall 0];
       world := fmt.Println "Processing report:" "Hello" ""; result := Returns nil |}
  /\ ProcessXML (@guideProcessor plainReader) order12345 ""
     = {| calls := [CanHandleCall 0; CanHandleCall 1; HandleCall 1];
          world := fmt.Println "Processing order ID:" "12345" ""; result := Returns nil |}
  /\ ProcessXML (@guideProcessor plainReader) invoiceOther ""
     = {| calls := [CanHandleCall 0; CanHandleCall 1]; world := "";
          result := Returns (Some (errorString "no handler found for the given XML")) |}.
Proof.
  split; [|split].
  - exact (proj1 (@guideProcessor_routes plainReader reportHello "") _ _ _
             (@document_reportHello plainReader) eq_refl).
  - exact (proj1 (proj2 (@guideProcessor_routes plainReader order12345 "")) _ _ _
             (@document_order12345 plainReader) eq_refl).
  - refine (proj1 (proj2 (proj2 (@guideProcessor_routes plainReader invoiceOther ""))) _).
    right. eexists _, _, _. split; [exact (@document_invoiceOther plainReader)|].
    split; discriminate.
Defined.

(** What [Handle] of a printing handler does to standard output and what it
    returns do not depend on what was printed before. *)
Lemma printing_Handle_appends : forall `{reader : xml.TokenReader} (h : Handler Stdout)
  (xmlData : list byte),
  h = ReportHandler \/ h = InvoiceHandler \/ h = OrderHandler ->
  exists line err, forall out : Stdout, Handle h xmlData out = ((out ++ line)%string, err).
Proof.
  intros reader h xmlData [ -> | [ -> | -> ] ];
    cbn [Handle ReportHandler InvoiceHandler OrderHandler].
  - unfold ReportHandler.Handle.
    destruct (xml.Unmarshal xmlData ReportHandler.Report_typeInfo ReportHandler.Report_zero)
      as [v [e|]].
    + exists "", (Some e). intro out. now rewrite append_empty_r.
    + eexists _, nil. intro out. reflexivity.
  - unfold InvoiceHandler.Handle.
    destruct (xml.Unmarshal xmlData InvoiceHandler.Invoice_typeInfo InvoiceHandler.Invoice_zero)
      as [v [e|]].
    + exists "", (Some e). intro out. now rewrite append_empty_r.
    + eexists _, nil. intro out. reflexivity.
  - unfold OrderHandler.Handle.
    destruct (xml.Unmarshal xmlData OrderHandler.Order_typeInfo OrderHandler.Order_zero)
      as [v [e|]].
    + exists "", (Some e). intro out. now rewrite append_empty_r.
    + eexists _, nil. intro out. reflexivity.
Qed.

(** X16. On a processor that holds only report, invoice and order handlers,
    what a dispatch prints and what it returns are fixed by the payload:
    they do not depend on what was printed before, and earlier output is
    kept.  Dispatching a payload again gives the same result and prints the
    same line again. *)
Theorem printing_dispatch_depends_on_payload :
  forall `{reader : xml.TokenReader} (l : list (Handler Stdout)) (xmlData : list byte),
  Forall (fun h => h = ReportHandler \/ h = InvoiceHandler \/ h = OrderHandler) l ->
  exists line r, forall out : Stdout,
    observed (ProcessXML (registerAll l) xmlData out) = ((out ++ line)%string, r)
    /\ observed (ProcessXML (registerAll l) xmlData
                   (world (ProcessXML (registerAll l) xmlData out)))
       = (((out ++ line) ++ line)%string, r).
Proof.
  intros reader l xmlData Hl.
  assert (H : exists line r, forall out : Stdout,
            observed (ProcessXML (registerAll l) xmlData out) = ((out ++ line)%string, r)).
  { unfold ProcessXML. rewrite handlers_registerAll.
    destruct (filter (fun h => CanHandle h xmlData) l) as [|h m] eqn:EF.
    - exists "", (Returns noHandlerFound). intro out.
      now rewrite observed_first_match, EF, append_empty_r.
    - assert (Hin : In h (filter (fun h => CanHandle h xmlData) l)) by (rewrite EF; now left).
      apply filter_In in Hin as [Hin _]. rewrite Forall_forall in Hl.
      destruct (printing_Handle_appends h xmlData (Hl h Hin)) as (line & err & Hh).
      exists line, (Returns err). intro out.
      now rewrite observed_first_match, EF, Hh. }
  destruct H as (line & r & H). exists line, r. intro out. split; [apply H|].
  pose proof (H out) as H1. unfold observed in H1. injection H1 as -> _. apply H.
Qed.

(** The report dispatched twice is printed twice. *)
Lemma printing_dispatch_depends_on_payload_witness :
  exists line r, forall out : Stdout,
    observed (ProcessXML (registerAll [@InvoiceHandler plainReader; @ReportHandler plainReader])
                reportHello out) = ((out ++ line)%string, r)
    /\ observed (ProcessXML (registerAll [@InvoiceHandler plainReader; @ReportHandler plainReader])
                   reportHello
                   (world (ProcessXML (registerAll [@InvoiceHandler plainReader;
                                                    @ReportHandler plainReader])
                             reportHello out)))
       = (((out ++ line) ++ line)%string, r).
Proof.
  refine (@printing_dispatch_depends_on_payload plainReader
            [@InvoiceHandler plainReader; @ReportHandler plainReader] reportHello _).
  apply Forall_cons; [right; left; reflexivity|].
  apply Forall_cons; [left; reflexivity|].
  apply Forall_nil.
Defined.

Lemma rangeAny_idempotent : forall (World : Type) (hs : list (option (AnyHandler World)))
  (xmlData : list byte),
  (forall h, In (Some h) hs ->
     forall w1 w2, canHandle h xmlData w1 = canHandle h xmlData w2) ->
  (forall h, In (Some h) hs ->
     forall w', handle h xmlData (fst (handle h xmlData w')) = handle h xmlData w') ->
  forall i w,
    rangeAny hs i xmlData (world (rangeAny hs i xmlData w)) = rangeAny hs i xmlData w.
Proof.
  intros World hs xmlData.
  induction hs as [|[h|] hs IH]; intros Hcan Hidem i w; cbn [rangeAny].
  - reflexivity.
  - assert (Hh : In (Some h) (Some h :: hs)) by now left.
    destruct (canHandle h xmlData w) as [[|]|m] eqn:E.
    + destruct (handle h xmlData w) as [w' r] eqn:EH. cbn [world].
      rewrite (Hcan h Hh w' w), E.
      replace w' with (fst (handle h xmlData w)) by now rewrite EH.
      rewrite (Hidem h Hh w), EH. reflexivity.
    + cbn [world]. rewrite (Hcan h Hh _ w), E.
      rewrite IH; [reflexivity| |].
      * intros h' Hin. apply Hcan. now right.
      * intros h' Hin. apply Hidem. now right.
    + cbn [world]. now rewrite E.
  - reflexivity.
Qed.

(** X17. For handlers whose [CanHandle] may read the state: when, for a
    payload, the answer of [CanHandle] of every registered handler does not
    depend on the state, and running [Handle] a second time leaves the
    state and returns the result of the first run, a second dispatch of
    the payload is the first one over again: same calls, same state, same
    result.  A processor that holds only the test handler is of that kind
    for every payload: it stores the same branch name again, or finds no
    handler again. *)
Theorem ProcessXML_idempotent : forall `{reader : xml.TokenReader},
  (forall (World : Type) (hs : list (option (AnyHandler World))) (xmlData : list byte) (w : World),
     (forall h, In (Some h) hs ->
        forall w1 w2, canHandle h xmlData w1 = canHandle h xmlData w2) ->
     (forall h, In (Some h) hs ->
        forall w', handle h xmlData (fst (handle h xmlData w')) = handle h xmlData w') ->
     ProcessXML_any hs xmlData (world (ProcessXML_any hs xmlData w))
     = ProcessXML_any hs xmlData w)
  /\ (forall (xmlData : list byte) (t : TestCodeChangesHandler.receiver),
        ProcessXML (RegisterHandler NewXMLProcessor (Some TestCodeChangesHandler)) xmlData
          (world (ProcessXML (RegisterHandler NewXMLProcessor (Some TestCodeChangesHandler))
                    xmlData t))
        = ProcessXML (RegisterHandler NewXMLProcessor (Some TestCodeChangesHandler)) xmlData t).
Proof.
  intro reader. split.
  - intros World hs xmlData w Hcan Hidem. now apply rangeAny_idempotent.
  - intros xmlData t. unfold ProcessXML.
    cbn [RegisterHandler NewXMLProcessor handlers app rangeHandlers CanHandle Handle
         TestCodeChangesHandler].
    destruct (TestCodeChangesHandler.CanHandle xmlData); [|reflexivity].
    unfold TestCodeChangesHandler.Handle.
    destruct (xml.Unmarshal xmlData TestCodeChangesHandler.CodeChanges_typeInfo
                TestCodeChangesHandler.CodeChanges_zero) as [v [e|]]; reflexivity.
Qed.

(** The payload of the test dispatched twice to the test handler. *)
Lemma ProcessXML_idempotent_witness :
  ProcessXML_any [Some (asAny (@TestCodeChangesHandler plainReader))] codeChanges
    (world (ProcessXML_any [Some (asAny (@TestCodeChangesHandler plainReader))] codeChanges
              TestCodeChangesHandler.new))
  = ProcessXML_any [Some (asAny (@TestCodeChangesHandler plainReader))] codeChanges
      TestCodeChangesHandler.new.
Proof.
  refine (proj1 (@ProcessXML_idempotent plainReader) TestCodeChangesHandler.receiver
            [Some (asAny (@TestCodeChangesHandler plainReader))]
            codeChanges TestCodeChangesHandler.new _ _).
  - intros h [E|[]] w1 w2. injection E as <-. reflexivity.
  - intros h [E|[]] w'. injection E as <-.
    cbn [asAny handle Handle TestCodeChangesHandler]. unfold TestCodeChangesHandler.Handle.
    destruct (xml.Unmarshal codeChanges TestCodeChangesHandler.CodeChanges_typeInfo
                TestCodeChangesHandler.CodeChanges_zero) as [v [e|]]; reflexivity.
Defined.

(** X18. Registering a handler that is registered already changes nothing
    that the caller observes, for any payload: the second entry is reached
    only when the first has declined, and then it declines too. *)
Theorem duplicate_registration_harmless :
  forall (World : Type) (p : XMLProcessor World) (h : Handler World) (xmlData : list byte)
         (w : World),
  In (Some h) (handlers p) ->
  observed (ProcessXML (RegisterHandler p (Some h)) xmlData w)
  = observed (ProcessXML p xmlData w).
Proof.
  intros World p h xmlData w Hin.
  destruct (registry_cases (handlers p) xmlData)
    as [Hall|[(pre & h' & post & Hp & Hpre & Hyes)|(pre & post & Hp & Hpre)]].
  - assert (Hno : CanHandle h xmlData = false).
    { rewrite Forall_forall in Hall. destruct (Hall _ Hin) as [h0 [E Hno]].
      now injection E as <-. }
    rewrite (ProcessXML_all_decline p _ _ Hall).
    rewrite (ProcessXML_all_decline (RegisterHandler p (Some h))); [reflexivity|].
    cbn [RegisterHandler handlers]. apply Forall_app. split; [exact Hall|].
    constructor; [|constructor]. now exists h.
  - rewrite (ProcessXML_accepted _ _ _ _ _ _ Hp Hpre Hyes).
    rewrite (ProcessXML_accepted (RegisterHandler p (Some h)) pre h' (post ++ [Some h]));
      [reflexivity| |exact Hpre|exact Hyes].
    cbn [RegisterHandler handlers]. now rewrite Hp, <- app_assoc.
  - rewrite (ProcessXML_nil_reached _ _ _ _ _ Hp Hpre).
    rewrite (ProcessXML_nil_reached (RegisterHandler p (Some h)) pre (post ++ [Some h]));
      [reflexivity| |exact Hpre].
    cbn [RegisterHandler handlers]. now rewrite Hp, <- app_assoc.
Qed.

(** The invoice handler registered a second time, on a report. *)
Lemma duplicate_registration_harmless_witness :
  observed (ProcessXML (RegisterHandler (registerAll [@InvoiceHandler plainReader])
                          (Some (@InvoiceHandler plainReader))) reportHello "")
  = observed (ProcessXML (registerAll [@InvoiceHandler plainReader]) reportHello "").
Proof.
  refine (duplicate_registration_harmless Stdout (registerAll [@InvoiceHandler plainReader])
            (@InvoiceHandler plainReader) reportHello "" _).
  left. reflexivity.
Defined.
